(** * ZeroTier bridge setup script (zerotier_bridge_setup_v1_5.py)

    A shallow embedding of the provisioning script and the properties of
    its specification.  The script is a sequence of shell commands, file
    rewrites and prompts; it is embedded as a state-and-exception monad
    over an explicit machine state (files, crontab, pending operator
    input, event trace) and an external world that answers commands.

    Strings are Python [str] values restricted to code points below 256:
    one [ascii] is one character. *)

From Stdlib Require Import ZArith String Ascii DecimalString.
From stdpp Require Import base option list gmap strings.

Local Open Scope Z_scope.
Local Open Scope nat_scope.

(** ** Python string operations *)

(** The one-character string with a line feed, Python's ["\n"]. *)
Definition nl : string := String (ascii_of_nat 10) EmptyString.

Module Py.

Definition code (c : ascii) : nat := nat_of_ascii c.

Definition between (lo hi : nat) (c : ascii) : bool :=
  (lo <=? code c) && (code c <=? hi).

(** [str.isspace] on one character: TAB..CR, FS..US, space, NEL, NBSP. *)
Definition is_space (c : ascii) : bool :=
  between 9 13 c || between 28 32 c || (code c =? 133) || (code c =? 160).

(** [\d] of the [re] module on [str] patterns: decimal digits. *)
Definition is_digit (c : ascii) : bool := between 48 57 c.

(** The character class [[a-f0-9]]. *)
Definition is_lower_hex (c : ascii) : bool :=
  between 48 57 c || between 97 102 c.

(** [\w] of the [re] module on [str] patterns: alphanumerics and [_]. *)
Definition is_word (c : ascii) : bool :=
  between 48 57 c || between 65 90 c || between 97 122 c || (code c =? 95)
  || (code c =? 170) || (code c =? 178) || (code c =? 179) || (code c =? 181)
  || (code c =? 185) || (code c =? 186) || between 188 190 c
  || between 192 214 c || between 216 246 c || between 248 255 c.

Definition is_empty (s : string) : bool :=
  match s with EmptyString => true | String _ _ => false end.

Fixpoint lstrip (s : string) : string :=
  match s with
  | EmptyString => EmptyString
  | String c t => if is_space c then lstrip t else s
  end.

Fixpoint rstrip (s : string) : string :=
  match s with
  | EmptyString => EmptyString
  | String c t =>
      match rstrip t with
      | EmptyString => if is_space c then EmptyString else String c EmptyString
      | t' => String c t'
      end
  end.

(** [s.strip()] *)
Definition strip (s : string) : string := rstrip (lstrip s).

Definition lower_char (c : ascii) : ascii :=
  if between 65 90 c || (between 192 222 c && negb (code c =? 215))
  then ascii_of_nat (code c + 32) else c.

(** [s.lower()] *)
Fixpoint lower (s : string) : string :=
  match s with
  | EmptyString => EmptyString
  | String c t => String (lower_char c) (lower t)
  end.

(** [pat in s] *)
Fixpoint contains (pat s : string) : bool :=
  String.prefix pat s ||
  match s with
  | EmptyString => false
  | String _ t => contains pat t
  end.

(** Number of positions of [s] at which [pat] starts. *)
Fixpoint occurrences (pat s : string) : nat :=
  (if String.prefix pat s then 1 else 0) +
  match s with
  | EmptyString => 0
  | String _ t => occurrences pat t
  end.

(** [c in s] for one character. *)
Fixpoint has_char (c : ascii) (s : string) : bool :=
  match s with
  | EmptyString => false
  | String d t => Ascii.eqb c d || has_char c t
  end.

Fixpoint split_aux (s cur : string) : list string :=
  match s with
  | EmptyString => if is_empty cur then [] else [cur]
  | String c t =>
      if is_space c
      then (if is_empty cur then split_aux t EmptyString
            else cur :: split_aux t EmptyString)
      else split_aux t (cur +:+ String c EmptyString)
  end.

(** [s.split()]: the maximal runs of characters that are not white space. *)
Definition split (s : string) : list string := split_aux s EmptyString.

Fixpoint split_on_aux (sep : ascii) (s cur : string) : list string :=
  match s with
  | EmptyString => [cur]
  | String c t =>
      if Ascii.eqb c sep then cur :: split_on_aux sep t EmptyString
      else split_on_aux sep t (cur +:+ String c EmptyString)
  end.

(** [s.split(sep)] for a one-character separator; never empty. *)
Definition split_on (sep : ascii) (s : string) : list string :=
  split_on_aux sep s EmptyString.

Fixpoint basename_aux (s cur : string) : string :=
  match s with
  | EmptyString => cur
  | String c t =>
      if Ascii.eqb c "/" then basename_aux t EmptyString
      else basename_aux t (cur +:+ String c EmptyString)
  end.

(** [os.path.basename]: what follows the last slash. *)
Definition basename (s : string) : string := basename_aux s EmptyString.

(** [", ".join(l)] *)
Fixpoint join (sep : string) (l : list string) : string :=
  match l with
  | [] => EmptyString
  | [x] => x
  | x :: r => x +:+ sep +:+ join sep r
  end.

(** [\d{1,3}], greedy: what is left after one to three digits. *)
Definition digits_1_3 (s : string) : option string :=
  match s with
  | String a t =>
      if is_digit a then
        match t with
        | String b u =>
            if is_digit b then
              match u with
              | String c v => if is_digit c then Some v else Some u
              | EmptyString => Some u
              end
            else Some t
        | EmptyString => Some t
        end
      else None
  | EmptyString => None
  end.

(** [\d{1,3}\.] *)
Definition digits_dot (s : string) : option string :=
  match digits_1_3 s with
  | Some (String c t) => if Ascii.eqb c "." then Some t else None
  | _ => None
  end.

(** [re.match(r'^(\d{1,3}\.){3}\d{1,3}$', s)] as a truth value.  A digit
    never matches the dot, so the greedy reading is the only one; [$]
    also matches before a final line feed. *)
Definition match_ip (s : string) : bool :=
  match ((digits_dot s ≫= digits_dot) ≫= digits_dot) ≫= digits_1_3 with
  | Some rest => is_empty rest || String.eqb rest nl
  | None => false
  end.

Fixpoint all_lower_hex (n : nat) (s : string) : bool :=
  match n with
  | 0 => true
  | S n' =>
      match s with
      | String c t => is_lower_hex c && all_lower_hex n' t
      | EmptyString => false
      end
  end.

Definition word_at (n : nat) (s : string) : bool :=
  match String.get n s with
  | Some c => is_word c
  | None => false
  end.

Fixpoint search_hex16_aux (prev_word : bool) (s : string) : option string :=
  match s with
  | EmptyString => None
  | String c t =>
      if negb prev_word && all_lower_hex 16 s && negb (word_at 16 s)
      then Some (String.substring 0 16 s)
      else search_hex16_aux (is_word c) t
  end.

(** [re.search(r'\b([a-f0-9]{16})\b', s)], group 1 of the leftmost match. *)
Definition search_hex16 (s : string) : option string :=
  search_hex16_aux false s.

End Py.

(** ** External commands

    Every shell command the script runs, with the text the script builds
    for it ([command_line]).  The world answers a command by its
    constructor, so that the effect of [cp], [wget] and [crontab] on the
    machine state can be given. *)

Inductive Command : Type :=
| Cp (filepath backup_path : string)
| DpkgPrintArchitecture
| Wget (output_path package_url : string)
| AptCacheShowFilename (package_name : string)
| DpkgInstall (deb_file : string)
| AptGetInstallFix
| AptGetUpdate
| DpkgListGrep (package : string)
| AptGetInstall (package : string)
| ZeroTierInstaller
| IsActiveNetworkManager
| StopNetworkManager
| DisableNetworkManager
| IpLinkShowNames
| IpAddrShow (physical_interface : string)
| ZeroTierJoin (network_id : string)
| IpLinkShowZt
| ZeroTierInfo
| ZeroTierListNetworks
| ZeroTierSetAllowManaged (network_id : string)
| CrontabList
| CrontabInstall (new_cron : string).

Definition command_line (c : Command) : string :=
  match c with
  | Cp filepath backup_path => "cp " +:+ filepath +:+ " " +:+ backup_path
  | DpkgPrintArchitecture => "dpkg --print-architecture"
  | Wget output_path package_url =>
      "wget -q --show-progress -O " +:+ output_path +:+ " " +:+ package_url
  | AptCacheShowFilename package_name =>
      "apt-cache show " +:+ package_name +:+ " | grep Filename:"
  | DpkgInstall deb_file => "dpkg -i " +:+ deb_file
  | AptGetInstallFix => "apt-get install -f -y"
  | AptGetUpdate => "apt-get update"
  | DpkgListGrep package => "dpkg -l | grep '^ii.*" +:+ package +:+ "'"
  | AptGetInstall package => "apt-get install -y " +:+ package
  | ZeroTierInstaller => "curl -s https://install.zerotier.com/ | bash"
  | IsActiveNetworkManager => "systemctl is-active NetworkManager"
  | StopNetworkManager => "systemctl stop NetworkManager"
  | DisableNetworkManager => "systemctl disable NetworkManager"
  | IpLinkShowNames =>
      "ip link show | grep -E '^[0-9]+:' | awk '{print $2}' | sed 's/://'"
  | IpAddrShow physical_interface => "ip addr show " +:+ physical_interface
  | ZeroTierJoin network_id => "zerotier-cli join " +:+ network_id
  | IpLinkShowZt => "ip link show | grep 'zt' | awk '{print $2}' | sed 's/:$//'"
  | ZeroTierInfo => "zerotier-cli info"
  | ZeroTierListNetworks => "zerotier-cli listnetworks"
  | ZeroTierSetAllowManaged network_id =>
      "zerotier-cli set " +:+ network_id +:+ " allowManaged=0"
  | CrontabList => "crontab -l"
  | CrontabInstall new_cron => "echo '" +:+ new_cron +:+ "' | crontab -"
  end.

(** What [subprocess.run] hands back, and what [CalledProcessError]
    carries: exit status and the two output streams.  A stream that was
    not captured is the empty string here (the script never reads one). *)
Record CompletedProcess : Type := {
  returncode : Z;
  stdout : string;
  stderr : string
}.

Inductive Exn : Type :=
| SystemExit (status : Z)
| CalledProcessError (e : CompletedProcess)
| EOFError
| OSError (path : string)
| IndexError.

(** [except Exception] catches everything but [SystemExit]. *)
Definition is_Exception (e : Exn) : bool :=
  match e with SystemExit _ => false | _ => true end.

Inductive Marker : Type := Header | Success | Error | Warning | Info | Plain.

Inductive Mode : Type := ModeW | ModeA.

Inductive Event : Type :=
| EvRun (c : Command) (r : CompletedProcess)
| EvInput (prompt line : string)
| EvPrint (m : Marker) (text : string)
| EvWrite (path : string) (mode : Mode) (data : string)
| EvSleep (seconds : nat).

(** ** The world and the machine state *)

(** The world outside the script.  An instant is the number of events
    the run has produced so far; the world may answer differently at
    different instants. *)
Record World : Type := {
  geteuid : Z;
  strftime : nat -> string;
  respond : nat -> Command -> CompletedProcess;
  fetched : nat -> string -> string;
  can_open : nat -> string -> bool
}.

Record State : Type := {
  files : gmap string string;
  crontab : option string;
  stdin : list string;
  trace : list Event
}.

Definition now (s : State) : nat := length (trace s).

Definition log (e : Event) (s : State) : State :=
  {| files := files s; crontab := crontab s; stdin := stdin s;
     trace := e :: trace s |}.

Definition set_file (path data : string) (s : State) : State :=
  {| files := <[path := data]> (files s); crontab := crontab s;
     stdin := stdin s; trace := trace s |}.

Definition set_crontab (table : string) (s : State) : State :=
  {| files := files s; crontab := Some table; stdin := stdin s;
     trace := trace s |}.

Definition set_stdin (lines : list string) (s : State) : State :=
  {| files := files s; crontab := crontab s; stdin := lines;
     trace := trace s |}.

(** ** The monad: state and Python exceptions *)

Inductive Res (A : Type) : Type :=
| Ok (a : A)
| Raise (e : Exn).
Arguments Ok {A} a.
Arguments Raise {A} e.

Definition M (A : Type) : Type := State -> Res A * State.

#[global] Instance M_ret : MRet M := fun A a s => (Ok a, s).

Definition bind {A B : Type} (m : M A) (f : A -> M B) : M B := fun s =>
  match m s with
  | (Ok a, s') => f a s'
  | (Raise e, s') => (Raise e, s')
  end.

#[global] Instance M_bind : MBind M := fun A B f m => bind m f.

Notation "'let*' x ':=' m 'in' k" := (bind m (fun x => k))
  (at level 10, x name, m at level 100, k at level 200).

Definition raise {A : Type} (e : Exn) : M A := fun s => (Raise e, s).

(** [try: m except Exception as e: handler e] *)
Definition try_except {A : Type} (m : M A) (handler : Exn -> M A) : M A :=
  fun s =>
    match m s with
    | (Raise e, s') => if is_Exception e then handler e s' else (Raise e, s')
    | r => r
    end.

(** [try: m except subprocess.CalledProcessError as e: handler e] *)
Definition try_except_called {A : Type} (m : M A)
    (handler : CompletedProcess -> M A) : M A :=
  fun s =>
    match m s with
    | (Raise (CalledProcessError e), s') => handler e s'
    | r => r
    end.

Definition emit (e : Event) : M unit := fun s => (Ok tt, log e s).

Definition when (b : bool) (m : M unit) : M unit := if b then m else mret tt.

(** Truth value of a string and of a string-or-[None]. *)
Definition truthy (s : string) : bool := negb (Py.is_empty s).

Definition truthy_opt (o : option string) : bool :=
  match o with Some s => truthy s | None => false end.

(** [a or b] on strings *)
Definition or_default (a b : string) : string := if truthy a then a else b.

(** [x in ['yes', 'y']] *)
Definition is_yes (response : string) : bool :=
  String.eqb response "yes" || String.eqb response "y".

(** Decimal rendering of a number inside an f-string. *)
Definition str_nat (n : nat) : string :=
  DecimalString.NilEmpty.string_of_uint (Nat.to_uint n).

(** The text an f-string gives for a caught exception; only printed. *)
Definition str_exn (e : Exn) : string :=
  match e with
  | SystemExit _ => "SystemExit"
  | CalledProcessError _ => "CalledProcessError"
  | EOFError => "EOF when reading a line"
  | OSError path => "[Errno] " +:+ path
  | IndexError => "list index out of range"
  end.

(** ** The script *)

Section Script.

Context (W : World).

(** *** Console, files, clock, processes *)

Definition print_header (text : string) : M unit := emit (EvPrint Header text).
Definition print_success (text : string) : M unit := emit (EvPrint Success text).
Definition print_error (text : string) : M unit := emit (EvPrint Error text).
Definition print_warning (text : string) : M unit := emit (EvPrint Warning text).
Definition print_info (text : string) : M unit := emit (EvPrint Info text).
Definition print (text : string) : M unit := emit (EvPrint Plain text).

(** [input(prompt)]: the next line the operator types, [EOFError] when
    there is none. *)
Definition input (prompt : string) : M string := fun s =>
  match stdin s with
  | line :: rest => (Ok line, log (EvInput prompt line) (set_stdin rest s))
  | [] => (Raise EOFError, s)
  end.

Definition sys_exit {A : Type} (status : Z) : M A := raise (SystemExit status).

Definition os_path_exists (path : string) : M bool := fun s =>
  (Ok (match files s !! path with Some _ => true | None => false end), s).

Definition os_path_getsize (path : string) : M nat := fun s =>
  match files s !! path with
  | Some data => (Ok (String.length data), s)
  | None => (Raise (OSError path), s)
  end.

(** [with open(path, 'w' or 'a') as f: f.write(data)] *)
Definition write_file (path : string) (mode : Mode) (data : string) : M unit :=
  fun s =>
    if can_open W (now s) path then
      let old := match mode with
                 | ModeW => EmptyString
                 | ModeA => default EmptyString (files s !! path)
                 end in
      (Ok tt, log (EvWrite path mode data) (set_file path (old +:+ data) s))
    else (Raise (OSError path), s).

(** [with open(path, 'r') as f: f.read()] *)
Definition read_file (path : string) : M string := fun s =>
  if can_open W (now s) path then
    match files s !! path with
    | Some data => (Ok data, s)
    | None => (Raise (OSError path), s)
    end
  else (Raise (OSError path), s).

(** [os.makedirs(path, exist_ok=True)]: directories are not part of
    the machine state. *)
Definition os_makedirs (path : string) : M unit := mret tt.

Definition time_strftime : M string := fun s => (Ok (strftime W (now s)), s).

Definition time_sleep (seconds : nat) : M unit := emit (EvSleep seconds).

(** What the command answers: the job table is part of the machine
    state, everything else is up to the world. *)
Definition answer (c : Command) (s : State) : CompletedProcess :=
  match c with
  | CrontabList =>
      match crontab s with
      | Some table => {| returncode := 0; stdout := table; stderr := EmptyString |}
      | None => {| returncode := 1; stdout := EmptyString;
                   stderr := "no crontab for root" +:+ nl |}
      end
  | _ => respond W (now s) c
  end.

(** What the command leaves behind: [cp] copies when it succeeds,
    [wget -O] leaves at its output path what the world serves (an empty
    file when nothing was received), [echo ... | crontab -]
    installs the echoed text (with echo's line feed) when it succeeds. *)
Definition effect (c : Command) (r : CompletedProcess) (s : State) : State :=
  match c with
  | Cp filepath backup_path =>
      if (returncode r =? 0)%Z then
        match files s !! filepath with
        | Some data => set_file backup_path data s
        | None => s
        end
      else s
  | Wget output_path package_url =>
      set_file output_path (fetched W (now s) package_url) s
  | CrontabInstall new_cron =>
      if (returncode r =? 0)%Z then set_crontab (new_cron +:+ nl) s else s
  | _ => s
  end.

(** [subprocess.run(command, shell=True, check=check,
    capture_output=capture_output, text=True)] *)
Definition subprocess_run (command : Command) (check capture_output : bool)
    : M CompletedProcess := fun s =>
  let r := answer command s in
  let s' := log (EvRun command r) (effect command r s) in
  let seen := if capture_output then r
              else {| returncode := returncode r; stdout := EmptyString; stderr := EmptyString |} in
  if check && negb (returncode r =? 0)%Z
  then (Raise (CalledProcessError seen), s')
  else (Ok seen, s').

Definition run_command (command : Command) (description : string)
    (check capture_output : bool) : M CompletedProcess :=
  when (truthy description) (print_info description);;
  try_except_called (subprocess_run command check capture_output)
    (fun e =>
       when check
         (print_error ("Command failed: " +:+ command_line command);;
          when (truthy (stderr e)) (print ("Error: " +:+ stderr e)));;
       mret e).

Definition check_root : M unit :=
  if negb (geteuid W =? 0)%Z then
    print_error "This script must be run as root!";;
    print_info "Please run: sudo python3 zerotier_bridge_setup.py";;
    sys_exit 1
  else mret tt.

Definition backup_file (filepath : string) : M (option string) :=
  let* present := os_path_exists filepath in
  if present then
    let* timestamp := time_strftime in
    let backup_path := filepath +:+ ".backup." +:+ timestamp in
    try_except
      (run_command (Cp filepath backup_path) ("Backing up " +:+ filepath)
         true true;;
       print_success ("Backup created: " +:+ backup_path);;
       mret (Some backup_path))
      (fun e =>
         print_warning ("Could not create backup: " +:+ str_exn e);;
         mret None)
  else mret None.

(** *** Package provisioner *)

Definition get_architecture : M string :=
  let* result := run_command DpkgPrintArchitecture "Detecting system architecture"
             true true in
  if (returncode result =? 0)%Z then
    let arch := Py.strip (stdout result) in
    print_info ("Detected architecture: " +:+ arch);;
    mret arch
  else mret "armhf"%string.

Definition download_package_direct (package_url output_path : string) : M bool :=
  print_info ("Downloading from: " +:+ package_url);;
  let* result := run_command (Wget output_path package_url) EmptyString false false in
  let* present := os_path_exists output_path in
  if (returncode result =? 0)%Z && present then
    let* file_size := os_path_getsize output_path in
    if 1000 <? file_size then
      print_success ("Downloaded successfully (" +:+ str_nat file_size
                     +:+ " bytes)");;
      mret true
    else mret false
  else mret false.

Definition temp_dir : string := "/tmp/zerotier_packages".

Definition known_packages : gmap string (gmap string string) :=
  {[ "bridge-utils"%string :=
       {[ "armhf"%string := "http://ftp.debian.org/debian/pool/main/b/bridge-utils/bridge-utils_1.7.1-1_armhf.deb"%string;
          "arm64"%string := "http://ftp.debian.org/debian/pool/main/b/bridge-utils/bridge-utils_1.7.1-1_arm64.deb"%string ]};
     "ifupdown"%string :=
       {[ "armhf"%string := "http://ftp.debian.org/debian/pool/main/i/ifupdown/ifupdown_0.8.41_armhf.deb"%string;
          "arm64"%string := "http://ftp.debian.org/debian/pool/main/i/ifupdown/ifupdown_0.8.41_arm64.deb"%string ]} ]}.

Definition mirrors : list string :=
  [ "http://ftp.debian.org/debian/"; "http://deb.debian.org/debian/";
    "http://ftp.ch.debian.org/debian/"; "http://ftp.de.debian.org/debian/" ]%string.

Definition snapshot_urls : gmap string (gmap string string) :=
  {[ "ifupdown"%string :=
       {[ "armhf"%string := "http://snapshot.debian.org/archive/debian/20231201T084046Z/pool/main/i/ifupdown/ifupdown_0.8.41_armhf.deb"%string;
          "arm64"%string := "http://snapshot.debian.org/archive/debian/20231201T084046Z/pool/main/i/ifupdown/ifupdown_0.8.41_arm64.deb"%string ]} ]}.

(** [d[package_name][arch]] when [package_name in d and arch in d[package_name]] *)
Definition url_for (d : gmap string (gmap string string))
    (package_name arch : string) : option string :=
  match d !! package_name with
  | Some by_arch => by_arch !! arch
  | None => None
  end.

Definition output_file_of (url_or_filename : string) : string :=
  temp_dir +:+ "/" +:+ Py.basename url_or_filename.

(** The tail of [download_deb_package_improved]: the last [print_error]. *)
Definition could_not_download (package_name : string) : M (option string) :=
  print_error ("Could not download " +:+ package_name);;
  mret None.

(** [download_deb_package_improved] from "Last resort" on. *)
Definition download_from_snapshot (package_name arch : string)
    : M (option string) :=
  print_info "Trying Debian snapshot archive...";;
  match url_for snapshot_urls package_name arch with
  | Some snapshot_url =>
      let output_file := output_file_of snapshot_url in
      let* downloaded := download_package_direct snapshot_url output_file in
      if downloaded then mret (Some output_file)
      else could_not_download package_name
  | None => could_not_download package_name
  end.

(** [for mirror in mirrors: ...] with its [return] on the first success. *)
Fixpoint try_mirrors (filename : string) (l : list string)
    : M (option string) :=
  match l with
  | [] => mret None
  | mirror :: rest =>
      let package_url := mirror +:+ filename in
      let output_file := output_file_of filename in
      let* downloaded := download_package_direct package_url output_file in
      if downloaded then mret (Some output_file)
      else try_mirrors filename rest
  end.

(** [download_deb_package_improved] from "Try to search for package" on. *)
Definition download_from_mirrors (package_name arch : string)
    : M (option string) :=
  print_info "Searching for package URL via apt-cache...";;
  let* result := run_command (AptCacheShowFilename package_name) EmptyString false true in
  if (returncode result =? 0)%Z && truthy (Py.strip (stdout result)) then
    match last (Py.split (Py.strip (stdout result))) with
    | Some filename =>
        let* found := try_mirrors filename mirrors in
        match found with
        | Some output_file => mret (Some output_file)
        | None => download_from_snapshot package_name arch
        end
    | None => raise IndexError
    end
  else download_from_snapshot package_name arch.

Definition download_deb_package_improved (package_name arch : string)
    : M (option string) :=
  print_info ("Attempting to download " +:+ package_name +:+ "...");;
  os_makedirs temp_dir;;
  match url_for known_packages package_name arch with
  | Some known_url =>
      let output_file := output_file_of known_url in
      print_info "Trying known working version...";;
      let* downloaded := download_package_direct known_url output_file in
      if downloaded then mret (Some output_file)
      else download_from_mirrors package_name arch
  | None => download_from_mirrors package_name arch
  end.

Definition install_deb_package (deb_file : string) : M bool :=
  let* present := os_path_exists deb_file in
  if negb present then
    print_error ("Package file not found: " +:+ deb_file);;
    mret false
  else
    print_info ("Installing " +:+ Py.basename deb_file +:+ "...");;
    let* result := run_command (DpkgInstall deb_file) EmptyString false true in
    let* result := (if negb (returncode result =? 0)%Z then
                print_warning "Package installation had errors, trying to fix dependencies...";;
                run_command AptGetInstallFix EmptyString false true;;
                run_command (DpkgInstall deb_file) EmptyString false true
              else mret result) in
    if (returncode result =? 0)%Z then
      print_success ("Successfully installed " +:+ Py.basename deb_file);;
      mret true
    else
      print_error ("Failed to install " +:+ Py.basename deb_file);;
      mret false.

Definition packages : list string := [ "bridge-utils"; "ifupdown" ]%string.

(** The body of [for package in packages]; the result is
    [installation_failed] after the iteration. *)
Definition install_package (arch package : string)
    (installation_failed : list string) : M (list string) :=
  print_info (nl +:+ "--- Installing " +:+ package +:+ " ---");;
  let* check := run_command (DpkgListGrep package) EmptyString false true in
  if (returncode check =? 0)%Z then
    print_success (package +:+ " is already installed");;
    mret installation_failed
  else
    print_info ("Attempting to install " +:+ package +:+ " via apt-get...");;
    let* result := run_command (AptGetInstall package) EmptyString false true in
    if (returncode result =? 0)%Z then
      print_success ("Successfully installed " +:+ package +:+ " via apt-get");;
      mret installation_failed
    else
      print_warning ("apt-get failed for " +:+ package
                     +:+ ", trying direct download...");;
      let* deb_file := download_deb_package_improved package arch in
      if truthy_opt deb_file then
        let* installed := install_deb_package (default EmptyString deb_file) in
        if installed then
          print_success ("Successfully installed " +:+ package
                         +:+ " via direct download");;
          mret installation_failed
        else mret (installation_failed ++ [package])
      else mret (installation_failed ++ [package]).

Fixpoint install_each (arch : string) (l : list string)
    (installation_failed : list string) : M (list string) :=
  match l with
  | [] => mret installation_failed
  | package :: rest =>
      let* installation_failed := install_package arch package installation_failed in
      install_each arch rest installation_failed
  end.

Fixpoint print_manual_commands (l : list string) : M unit :=
  match l with
  | [] => mret tt
  | pkg :: rest =>
      print ("  sudo apt-get install -y " +:+ pkg);;
      print_manual_commands rest
  end.

(** [install_packages] up to "Report failed installations" included. *)
Definition install_required : M (list string) :=
  print_header "Installing Required Packages";;
  print_info "Updating package lists...";;
  let* result := run_command AptGetUpdate EmptyString false true in
  when (negb (returncode result =? 0)%Z)
    (print_warning "Package list update had issues, continuing anyway...");;
  let* arch := get_architecture in
  let* installation_failed := install_each arch packages [] in
  when (match installation_failed with [] => false | _ :: _ => true end)
    (print_warning (nl +:+ "Failed to install: "
                    +:+ Py.join ", " installation_failed);;
     print_info "You can try installing manually after the script completes:";;
     print_manual_commands installation_failed;;
     print EmptyString);;
  mret installation_failed.

Definition zerotier_cli : string := "/usr/sbin/zerotier-cli".

(** [install_packages], "Install ZeroTier". *)
Definition install_zerotier : M unit :=
  print_info (nl +:+ "--- Installing ZeroTier ---");;
  let* present := os_path_exists zerotier_cli in
  (if present then print_success "ZeroTier is already installed"
   else
     print_info "Installing ZeroTier via official script...";;
     let* result := run_command ZeroTierInstaller EmptyString false true in
     if (returncode result =? 0)%Z then
       print_success "ZeroTier installed successfully"
     else
       print_error "Failed to install ZeroTier";;
       print_error "Cannot continue without ZeroTier";;
       sys_exit 1);;
  print_success (nl +:+ "Package installation complete!").

Definition continue_prompt : string := nl +:+ "Continue anyway? (yes/no): ".

(** [install_packages], "Final check for critical packages". *)
Definition check_critical (installation_failed : list string) : M unit :=
  if bool_decide ("ifupdown"%string ∈ installation_failed) then
    print_warning (nl +:+ "WARNING: ifupdown failed to install!");;
    print_info "The bridge configuration requires ifupdown.";;
    print_info "After this script, try: sudo apt-get install -y ifupdown";;
    let* line := input continue_prompt in
    let response := Py.lower (Py.strip line) in
    if negb (is_yes response) then sys_exit 1 else mret tt
  else mret tt.

Definition install_packages : M unit :=
  let* installation_failed := install_required in
  install_zerotier;;
  check_critical installation_failed.

(** *** Interface configuration writer *)

Definition detect_network_manager : M bool :=
  let* result := run_command IsActiveNetworkManager EmptyString false true in
  mret (returncode result =? 0)%Z.

Definition disable_prompt : string := nl +:+ "Disable NetworkManager? (yes/no): ".

Definition handle_network_manager : M bool :=
  let* active := detect_network_manager in
  if active then
    print_warning "NetworkManager is active - this conflicts with manual bridge configuration";;
    print_info "For bridge configuration to work, we need to disable NetworkManager";;
    let* line := input disable_prompt in
    let response := Py.lower (Py.strip line) in
    if is_yes response then
      print_info "Disabling NetworkManager...";;
      run_command StopNetworkManager EmptyString true true;;
      run_command DisableNetworkManager EmptyString true true;;
      print_success "NetworkManager disabled";;
      mret true
    else
      print_error "Cannot continue with NetworkManager active";;
      print_info "Please manually disable NetworkManager or use a system without it";;
      sys_exit 1
  else mret false.

Definition dhcpcd_conf : string := "/etc/dhcpcd.conf".

(** The two [f.write] calls that create the file. *)
Definition dhcpcd_header : string :=
  "# dhcpcd configuration for ZeroTier bridge" +:+ nl +:+
  "# Created by zerotier_bridge_setup.py" +:+ nl +:+ nl.

(** The four [f.write] calls that append the directives. *)
Definition dhcpcd_block : string :=
  nl +:+ "# ZeroTier Bridge Configuration" +:+ nl +:+
  "# Prevent dhcpcd from managing bridge interfaces" +:+ nl +:+
  "denyinterfaces eth0" +:+ nl +:+
  "denyinterfaces zt*" +:+ nl.

(** The test [if 'denyinterfaces eth0' in content and 'denyinterfaces zt' in content]. *)
Definition dhcpcd_configured (content : string) : bool :=
  Py.contains "denyinterfaces eth0" content
  && Py.contains "denyinterfaces zt" content.

(** [configure_dhcpcd] from "Backup the file" on. *)
Definition configure_dhcpcd_existing : M bool :=
  backup_file dhcpcd_conf;;
  let* content :=
    try_except
      (let* content := read_file dhcpcd_conf in mret (Some content))
      (fun e =>
         print_error ("Could not read " +:+ dhcpcd_conf +:+ ": " +:+ str_exn e);;
         mret None) in
  match content with
  | None => mret false
  | Some content =>
      if dhcpcd_configured content then
        print_success "dhcpcd is already configured correctly";;
        mret true
      else
        print_info "Adding denyinterfaces to dhcpcd.conf...";;
        try_except
          (write_file dhcpcd_conf ModeA dhcpcd_block;;
           print_success "dhcpcd configured successfully";;
           mret true)
          (fun e =>
             print_error ("Failed to configure dhcpcd: " +:+ str_exn e);;
             mret false)
  end.

Definition configure_dhcpcd : M bool :=
  print_header "Configuring dhcpcd";;
  let* present := os_path_exists dhcpcd_conf in
  if negb present then
    print_warning (dhcpcd_conf +:+ " does not exist");;
    handle_network_manager;;
    print_info "Creating minimal dhcpcd.conf...";;
    let* created :=
      try_except
        (write_file dhcpcd_conf ModeW dhcpcd_header;;
         print_success ("Created " +:+ dhcpcd_conf);;
         mret true)
        (fun e =>
           print_error ("Could not create " +:+ dhcpcd_conf +:+ ": "
                        +:+ str_exn e);;
           mret false) in
    if created then configure_dhcpcd_existing else mret false
  else configure_dhcpcd_existing.

(** The [config] dictionary of [get_user_input]. *)
Record RunConfig : Type := {
  physical_interface : string;
  bridge_ip : string;
  netmask : string;
  gateway : string;
  dns : string;
  zerotier_network : option string
}.

(** [while True: v = input(prompt).strip(); if re.match(...): break;
    print_error(...)].  Each turn reads one line, so the number of
    pending lines bounds the turns; see [input_ip_fuel]. *)
Fixpoint input_ip_loop (fuel : nat) (prompt : string) : M string :=
  let* line := input prompt in
  let v := Py.strip line in
  if Py.match_ip v then mret v
  else
    print_error "Invalid IP address format";;
    match fuel with
    | S fuel' => input_ip_loop fuel' prompt
    | 0 => raise EOFError
    end.

Definition input_ip (prompt : string) : M string := fun s =>
  input_ip_loop (length (stdin s)) prompt s.

Definition default_interface : string := "eth0".
Definition default_netmask : string := "255.255.255.0".
Definition default_dns : string := "8.8.8.8 8.8.4.4".

Definition network_prompt : string :=
  nl +:+ "ZeroTier Network ID (or press Enter to skip): ".

Definition get_user_input : M RunConfig :=
  print_header "Configuration Parameters";;
  print_info "Available network interfaces:";;
  run_command IpLinkShowNames EmptyString true false;;
  let* line := input (nl +:+ "Physical interface to bridge ["
                      +:+ default_interface +:+ "]: ") in
  let physical_interface := or_default (Py.strip line) default_interface in
  print_info (nl +:+ "Current IP configuration:");;
  run_command (IpAddrShow physical_interface) EmptyString true false;;
  let* bridge_ip := input_ip (nl +:+ "Static IP for bridge (e.g., 192.168.1.2): ") in
  let* line := input ("Netmask [" +:+ default_netmask +:+ "]: ") in
  let netmask := or_default (Py.strip line) default_netmask in
  let* gateway := input_ip "Gateway IP (e.g., 192.168.1.1): " in
  let* line := input ("DNS servers [" +:+ default_dns +:+ "]: ") in
  let dns := or_default (Py.strip line) default_dns in
  print_info (nl +:+ "You can join the ZeroTier network now or skip and do it manually later.");;
  print_info "To join now, you need your ZeroTier Network ID (16-character hex string)";;
  print_info "Example: a84ac5c10a1b2c3d";;
  let* line := input network_prompt in
  let zt_network := Py.strip line in
  let zerotier_network :=
    if String.length zt_network =? 16 then Some zt_network else None in
  print_header "Configuration Summary";;
  print ("Physical Interface: " +:+ physical_interface);;
  print ("Bridge IP: " +:+ bridge_ip);;
  print ("Netmask: " +:+ netmask);;
  print ("Gateway: " +:+ gateway);;
  print ("DNS: " +:+ dns);;
  (if truthy_opt zerotier_network
   then print ("ZeroTier Network: " +:+ default EmptyString zerotier_network)
   else print "ZeroTier Network: Will join manually later");;
  let* line := input (nl +:+ "Proceed with these settings? (yes/no): ") in
  let confirm := Py.lower (Py.strip line) in
  if negb (is_yes confirm) then
    print_info "Configuration cancelled. Exiting.";;
    sys_exit 0
  else
    mret {| physical_interface := physical_interface; bridge_ip := bridge_ip;
            netmask := netmask; gateway := gateway; dns := dns;
            zerotier_network := zerotier_network |}.

Definition interfaces_file : string := "/etc/network/interfaces".

(** The f-string [interfaces_config]. *)
Definition interfaces_config (config : RunConfig) : string :=
  "# /etc/network/interfaces" +:+ nl +:+
  "# Configured by zerotier_bridge_setup.py" +:+ nl +:+
  nl +:+
  "# Loopback interface" +:+ nl +:+
  "auto lo" +:+ nl +:+
  "iface lo inet loopback" +:+ nl +:+
  nl +:+
  "# Physical interface - no IP configuration (manual mode)" +:+ nl +:+
  "auto " +:+ physical_interface config +:+ nl +:+
  "iface " +:+ physical_interface config +:+ " inet manual" +:+ nl +:+
  nl +:+
  "# Bridge interface" +:+ nl +:+
  "auto br0" +:+ nl +:+
  "iface br0 inet static" +:+ nl +:+
  "    address " +:+ bridge_ip config +:+ nl +:+
  "    netmask " +:+ netmask config +:+ nl +:+
  "    gateway " +:+ gateway config +:+ nl +:+
  "    dns-nameservers " +:+ dns config +:+ nl +:+
  "    bridge_ports " +:+ physical_interface config +:+ nl +:+
  "    bridge_stp off" +:+ nl +:+
  "    bridge_fd 0" +:+ nl +:+
  "    bridge_maxwait 0" +:+ nl.

Definition configure_network_interfaces (config : RunConfig) : M bool :=
  print_header "Configuring Network Interfaces";;
  backup_file interfaces_file;;
  try_except
    (write_file interfaces_file ModeW (interfaces_config config);;
     print_success (interfaces_file +:+ " configured successfully");;
     mret true)
    (fun e =>
       print_error ("Failed to write " +:+ interfaces_file +:+ ": "
                    +:+ str_exn e);;
       mret false).

(** *** Overlay network joiner *)

Definition join_zerotier_network (network_id : option string)
    : M (option string) :=
  print_header "Joining ZeroTier Network";;
  if negb (truthy_opt network_id) then
    print_warning "No network ID provided, skipping...";;
    mret None
  else
    let network_id := default EmptyString network_id in
    print_info ("Joining network " +:+ network_id +:+ "...");;
    let* result := run_command (ZeroTierJoin network_id) EmptyString false true in
    if (returncode result =? 0)%Z then
      print_success ("Successfully joined network " +:+ network_id);;
      time_sleep 2;;
      let* result := run_command IpLinkShowZt EmptyString false true in
      if (returncode result =? 0)%Z && truthy (Py.strip (stdout result)) then
        match head (Py.split_on (ascii_of_nat 10) (Py.strip (stdout result))) with
        | Some zt_interface =>
            print_info ("ZeroTier interface: " +:+ zt_interface);;
            mret (Some zt_interface)
        | None => raise IndexError
        end
      else mret None
    else
      print_error "Failed to join ZeroTier network";;
      mret None.

Record NodeInfo : Type := {
  node_id : string;
  version : string;
  status : string
}.

Definition get_zerotier_info : M (option NodeInfo) :=
  let* result := run_command ZeroTierInfo EmptyString false true in
  if (returncode result =? 0)%Z then
    let parts := Py.split (Py.strip (stdout result)) in
    match parts !! 2 with
    | Some id =>
        mret (Some {| node_id := id;
                      version := default "unknown"%string (parts !! 3);
                      status := default "unknown"%string (parts !! 4) |})
    | None => mret None
    end
  else mret None.

(** [for line in ...: if zt_interface in line: match = re.search(...);
    if match: network_id = match.group(1); break] *)
Fixpoint find_network_id (zt_interface : string) (lines : list string)
    : option string :=
  match lines with
  | [] => None
  | line :: rest =>
      if Py.contains zt_interface line then
        match Py.search_hex16 line with
        | Some id => Some id
        | None => find_network_id zt_interface rest
        end
      else find_network_id zt_interface rest
  end.

Definition configure_zerotier_managed (zt_interface : option string) : M bool :=
  print_header "Configuring ZeroTier Managed Routes";;
  if negb (truthy_opt zt_interface) then
    print_warning "No ZeroTier interface provided, skipping...";;
    mret false
  else
    let zt_interface := default EmptyString zt_interface in
    print_info "Setting allowManaged=0 for bridge mode...";;
    let* result := run_command ZeroTierListNetworks EmptyString false true in
    if negb (returncode result =? 0)%Z then
      print_error "Could not list ZeroTier networks";;
      mret false
    else
      let network_id :=
        find_network_id zt_interface
          (Py.split_on (ascii_of_nat 10) (stdout result)) in
      if negb (truthy_opt network_id) then
        print_error "Could not determine ZeroTier network ID";;
        mret false
      else
        let network_id := default EmptyString network_id in
        print_info ("Found network ID: " +:+ network_id);;
        let* result :=
          run_command (ZeroTierSetAllowManaged network_id) EmptyString false true in
        if (returncode result =? 0)%Z then
          print_success "allowManaged set to 0";;
          mret true
        else
          print_error "Failed to set allowManaged";;
          mret false.

(** *** Boot action scheduler *)

(** The f-string [cron_command]. *)
Definition cron_command (zt_interface : string) : string :=
  "@reboot sleep 45 && /usr/sbin/brctl addif br0 " +:+ zt_interface
  +:+ " >> /tmp/bridge-setup.log 2>&1".

Definition create_cron_job (zt_interface : option string) : M bool :=
  print_header "Configuring Auto-Start";;
  if negb (truthy_opt zt_interface) then
    print_warning "No ZeroTier interface provided, you'll need to manually add it to crontab";;
    print_info "After joining ZeroTier network, add this to root's crontab:";;
    print (nl +:+ "@reboot sleep 60 && brctl addif br0 ZEROTIER_INTERFACE" +:+ nl);;
    mret false
  else
    let cron_command := cron_command (default EmptyString zt_interface) in
    print_info "Adding cron job to root's crontab...";;
    let* result := run_command CrontabList EmptyString false true in
    let current_cron :=
      if (returncode result =? 0)%Z then stdout result else EmptyString in
    if Py.contains cron_command current_cron then
      print_success "Cron job already exists";;
      mret true
    else
      let new_cron := current_cron +:+ nl +:+ cron_command +:+ nl in
      let* result := run_command (CrontabInstall new_cron) EmptyString false true in
      if (returncode result =? 0)%Z then
        print_success "Cron job added successfully";;
        print_info ("Command: " +:+ cron_command);;
        mret true
      else
        print_error "Failed to add cron job";;
        mret false.

(** *** Orchestrator *)

(** The long instructions are presentation; of
    [print_portal_instructions] the node query and the two headings it
    chooses between are kept, of [print_final_instructions] the header. *)
Definition print_portal_instructions (config : RunConfig) : M unit :=
  print_header "ZeroTier Portal Configuration";;
  let* zt_info := get_zerotier_info in
  match zt_info with
  | Some info => print ("   Node ID: " +:+ node_id info)
  | None => print_warning "Could not get ZeroTier node information"
  end.

Definition print_final_instructions (config : RunConfig)
    (zt_interface : option string) : M unit :=
  print_header "Setup Complete - Final Steps";;
  print "Setup script completed successfully!".

(** [main] from "Install packages" on. *)
Definition provision (config : RunConfig) : M unit :=
  install_packages;;
  let* configured := configure_dhcpcd in
  (if negb configured then
     print_error "Failed to configure dhcpcd";;
     sys_exit 1
   else mret tt);;
  let* configured := configure_network_interfaces config in
  (if negb configured then
     print_error "Failed to configure network interfaces";;
     sys_exit 1
   else mret tt);;
  let* zt_interface :=
    (if truthy_opt (zerotier_network config) then
       let* zt_interface := join_zerotier_network (zerotier_network config) in
       (if truthy_opt zt_interface then
          configure_zerotier_managed zt_interface;;
          create_cron_job zt_interface;;
          mret tt
        else mret tt);;
       mret zt_interface
     else mret None) in
  print_portal_instructions config;;
  print_final_instructions config zt_interface;;
  print (nl +:+ "Remember to reboot: sudo reboot" +:+ nl).

Definition main : M unit :=
  print_header "ZeroTier Bridge Setup for Raspberry Pi OS Bookworm";;
  print "Version 1.5.1";;
  print ("This script will configure your Raspberry Pi as a ZeroTier network bridge" +:+ nl);;
  check_root;;
  let* config := get_user_input in
  provision config.

(** [if __name__ == "__main__": try: main() except Exception as e: ...
    sys.exit(1)] *)
Definition script : M unit :=
  try_except main
    (fun e =>
       print_error ("Unexpected error: " +:+ str_exn e);;
       sys_exit 1).

End Script.

(** ** Vocabulary of the properties *)

(** What a stretch of the run may touch.  [keeps_path p] asks that the
    file at [p] is left alone, [keeps_stdin] and [keeps_crontab] that no
    operator input is consumed and the job table is left alone, and
    [allowed] holds of every event the stretch adds to the trace. *)
Record Frame : Type := {
  keeps_path : string -> Prop;
  keeps_stdin : Prop;
  keeps_crontab : Prop;
  allowed : Event -> Prop
}.

Definition within (F : Frame) (s s' : State) : Prop :=
  (forall p, keeps_path F p -> files s' !! p = files s !! p)
  /\ (keeps_stdin F -> stdin s' = stdin s)
  /\ (keeps_crontab F -> crontab s' = crontab s)
  /\ exists new, trace s' = new ++ trace s /\ Forall (allowed F) new.

(** Every run of [m] stays within [F], whatever it returns or raises. *)
Definition respects {A : Type} (F : Frame) (m : M A) : Prop :=
  forall s r s', m s = (r, s') -> within F s s'.

(** [m] returns from every state: it never raises, never exits. *)
Definition returns {A : Type} (m : M A) : Prop :=
  forall s, exists a s', m s = (Ok a, s').

(** The commands a frame lets a stretch run. *)
Definition command_allowed (F : Frame) (c : Command) : Prop :=
  (forall r, allowed F (EvRun c r))
  /\ match c with
     | Cp _ backup_path => ~ keeps_path F backup_path
     | Wget output_path _ => ~ keeps_path F output_path
     | CrontabInstall _ => ~ keeps_crontab F
     | _ => True
     end.

Definition is_print (e : Event) : Prop :=
  match e with EvPrint _ _ => True | _ => False end.

(** The file writes of a stretch of trace: path, mode and data. *)
Fixpoint writes (t : list Event) : list (string * Mode * string) :=
  match t with
  | [] => []
  | EvWrite path mode data :: rest => (path, mode, data) :: writes rest
  | _ :: rest => writes rest
  end.

(** What the network-join stage and the two stages that depend on it
    (managed routes, boot action) do to the world: their commands and the
    wait for the interface. *)
Definition overlay_event (e : Event) : Prop :=
  match e with
  | EvRun (ZeroTierJoin _) _ | EvRun IpLinkShowZt _
  | EvRun ZeroTierListNetworks _ | EvRun (ZeroTierSetAllowManaged _) _
  | EvRun CrontabList _ | EvRun (CrontabInstall _) _ | EvSleep _ => True
  | _ => False
  end.


(** One download attempt as the trace shows it: where the file went,
    where it came from, and whether [download_package_direct] took it
    ([wget] exited with 0 and left more than 1000 bytes). *)
Record Attempt : Type := {
  att_output : string;
  att_url : string;
  att_accepted : bool
}.

Definition accepted (W : World) (instant : nat) (package_url : string)
    (r : CompletedProcess) : bool :=
  (returncode r =? 0)%Z && (1000 <? String.length (fetched W instant package_url)).

(** The attempts of a stretch of trace (newest event first) that starts
    at instant [base], oldest attempt first. *)
Fixpoint downloads_at (W : World) (base : nat) (t : list Event) : list Attempt :=
  match t with
  | [] => []
  | e :: rest =>
      downloads_at W base rest ++
      match e with
      | EvRun (Wget output_path package_url) r =>
          [ {| att_output := output_path; att_url := package_url;
               att_accepted := accepted W (base + length rest) package_url r |} ]
      | _ => []
      end
  end.

Definition target (a : Attempt) : string * string := (att_output a, att_url a).

(** The candidates of the three tiers, in the order of the source: the
    known URL, the mirrors for the file name the index search gave, the
    snapshot URL; each with the path it is downloaded to. *)
Definition tier_known (package_name arch : string) : list (string * string) :=
  match url_for known_packages package_name arch with
  | Some known_url => [(output_file_of known_url, known_url)]
  | None => []
  end.

Definition tier_mirrors (filename : option string) : list (string * string) :=
  match filename with
  | Some filename =>
      map (fun mirror => (output_file_of filename, mirror +:+ filename)) mirrors
  | None => []
  end.

Definition tier_snapshot (package_name arch : string) : list (string * string) :=
  match url_for snapshot_urls package_name arch with
  | Some snapshot_url => [(output_file_of snapshot_url, snapshot_url)]
  | None => []
  end.

(** The attempts [log] try the candidates [cands] in order and stop at
    the first one that is accepted: either all candidates were tried and
    rejected and the result is [None], or the log ends with the first
    accepted candidate, whose output path is the result, and the
    candidates after it were never tried. *)
Definition rejected (a : Attempt) : Prop := att_accepted a = false.

Definition first_success (cands : list (string * string)) (log : list Attempt)
    (result : option string) : Prop :=
  match result with
  | None => map target log = cands /\ Forall rejected log
  | Some output_file =>
      exists before a untried,
        log = before ++ [a]
        /\ cands = map target before ++ target a :: untried
        /\ Forall rejected before
        /\ att_accepted a = true
        /\ att_output a = output_file
  end.

Definition download_event (e : Event) : Prop :=
  match e with EvRun (Wget _ _) _ => True | _ => False end.

(** A stretch that downloads nothing and writes no file. *)
Definition no_download_frame : Frame := {|
  keeps_path := fun _ => True;
  keeps_stdin := True;
  keeps_crontab := True;
  allowed := fun e => ~ download_event e
|}.

(** [m], run from [s], gives [r] and [s'], and its download attempts are
    [log]. *)
Definition logs {A : Type} (W : World) (m : M A) (s : State) (r : Res A)
    (s' : State) (log : list Attempt) : Prop :=
  exists new, m s = (r, s') /\ trace s' = new ++ trace s
              /\ downloads_at W (now s) new = log.

(** A string of hexadecimal digits, in either case. *)
Definition is_hex_digit (c : ascii) : bool :=
  Py.between 48 57 c || Py.between 97 102 c || Py.between 65 70 c.

Fixpoint is_hex (s : string) : bool :=
  match s with
  | EmptyString => true
  | String c t => is_hex_digit c && is_hex t
  end.

(** The package provisioner leaves the overlay client binary, the
    pending operator input and the job table alone, and runs none of the
    overlay stages. *)
Definition provisioner_frame : Frame := {|
  keeps_path := fun p => p = zerotier_cli;
  keeps_stdin := True;
  keeps_crontab := True;
  allowed := fun e => ~ overlay_event e
|}.

(** A stretch that runs none of the overlay stages: the job table stays
    as it is and no overlay command is run. *)
Definition no_overlay_frame : Frame := {|
  keeps_path := fun _ => False;
  keeps_stdin := False;
  keeps_crontab := True;
  allowed := fun e => ~ overlay_event e
|}.


(** [m], run from [s], returns, and its download attempts try [cands] in
    order up to the first success, which is its result. *)
Definition tries (W : World) (cands : list (string * string))
    (m : M (option string)) (s : State) : Prop :=
  exists result s' log,
    logs W m s (Ok result) s' log /\ first_success cands log result.

(** Whether the operator was asked [prompt] in a stretch of trace. *)
Definition asked (prompt : string) (t : list Event) : bool :=
  existsb (fun e => match e with
                    | EvInput p _ => String.eqb p prompt
                    | _ => false
                    end) t.

(** Whether a command was run in a stretch of trace. *)
Definition ran (test : Command -> bool) (t : list Event) : bool :=
  existsb (fun e => match e with EvRun c _ => test c | _ => false end) t.

(** The line feed as a character. *)
Definition newline : ascii := ascii_of_nat 10.

(** The job table as the scheduler reads it: what [crontab -l] prints,
    or nothing when there is no table. *)
Definition current_cron (s : State) : string := default EmptyString (crontab s).


(** A stretch may do anything; what it adds to the trace is still only
    added. *)
Definition any_frame : Frame := {|
  keeps_path := fun _ => False;
  keeps_stdin := False;
  keeps_crontab := False;
  allowed := fun _ => True
|}.

(** The trace of [s'] continues the trace of [s]. *)
Definition extends (s s' : State) : Prop :=
  exists new, trace s' = new ++ trace s.

(** An event that is not a line of 16 characters (once stripped) typed
    at the network prompt. *)
Definition not_an_identifier (e : Event) : bool :=
  match e with
  | EvInput prompt line =>
      negb (String.eqb prompt network_prompt)
      || negb (String.length (Py.strip line) =? 16)
  | _ => true
  end.

(** ** Further vocabulary *)

(** The exit statuses the script uses: an exception that ends the process
    is [SystemExit 0] or [SystemExit 1]; other exceptions are not
    constrained here. *)
Definition exit_status_ok (e : Exn) : Prop :=
  match e with
  | SystemExit status => status = 0%Z \/ status = 1%Z
  | _ => True
  end.

(** A [SystemExit] other than with status 1 is excluded. *)
Definition exits_with_1 (e : Exn) : Prop :=
  match e with
  | SystemExit status => status = 1%Z
  | _ => True
  end.

(** Whatever [m] raises satisfies [P]. *)
Definition raises_only {A : Type} (P : Exn -> Prop) (m : M A) : Prop :=
  forall s e s', m s = (Raise e, s') -> P e.


(** The commands of a stretch of trace (newest event first), oldest
    command first. *)
Fixpoint commands (t : list Event) : list Command :=
  match t with
  | [] => []
  | EvRun c _ :: rest => commands rest ++ [c]
  | _ :: rest => commands rest
  end.



(** A path directly inside the download directory. *)
Definition in_temp_dir (path : string) : Prop :=
  exists name, path = temp_dir +:+ "/" +:+ name
               /\ Py.has_char "/" name = false.

(** Every download of a stretch goes to a file directly inside the
    download directory. *)
Definition download_frame : Frame := {|
  keeps_path := fun _ => False;
  keeps_stdin := False;
  keeps_crontab := False;
  allowed := fun e =>
    match e with
    | EvRun (Wget output_path _) _ => in_temp_dir output_path
    | _ => True
    end
|}.

(** A stretch that leaves the network-interfaces file and the job table
    alone and runs none of the overlay stages. *)
Definition before_interfaces_frame : Frame := {|
  keeps_path := fun p => p = interfaces_file;
  keeps_stdin := False;
  keeps_crontab := True;
  allowed := fun e => ~ overlay_event e
|}.




(** ** Sample hosts and operators

    Concrete worlds and states on which the script is run in the
    examples below. *)

Module Demo.

Definition succeeded (out : string) : CompletedProcess :=
  {| returncode := 0; stdout := out; stderr := EmptyString |}.

Definition failed (err : string) : CompletedProcess :=
  {| returncode := 1; stdout := EmptyString; stderr := err |}.

(** What the commands of a healthy host answer; the overlay client
    shows one interface, [ztabc123], on network [a84ac5c10a1b2c3d]. *)
Definition healthy (c : Command) : CompletedProcess :=
  match c with
  | DpkgPrintArchitecture => succeeded ("armhf" +:+ nl)
  | IpLinkShowZt => succeeded ("ztabc123" +:+ nl)
  | ZeroTierListNetworks =>
      succeeded ("200 listnetworks a84ac5c10a1b2c3d home 02:00:00:00:00:01 OK PRIVATE ztabc123 -" +:+ nl)
  | ZeroTierInfo => succeeded ("200 info 1234567890 1.14.0 ONLINE" +:+ nl)
  | _ => succeeded EmptyString
  end.

(** A host without network manager. *)
Definition plain_host : World := {|
  geteuid := 0;
  strftime := fun _ => "20251101_120000"%string;
  respond := fun _ c =>
    match c with
    | IsActiveNetworkManager => failed EmptyString
    | _ => healthy c
    end;
  fetched := fun _ _ => EmptyString;
  can_open := fun _ _ => true
|}.

(** A host on which the network manager is active. *)
Definition managed_host : World := {|
  geteuid := 0;
  strftime := fun _ => "20251101_120000"%string;
  respond := fun _ c => healthy c;
  fetched := fun _ _ => EmptyString;
  can_open := fun _ _ => true
|}.

(** A host on which [cp] and [crontab -] fail. *)
Definition failing_host : World := {|
  geteuid := 0;
  strftime := fun _ => "20251101_120000"%string;
  respond := fun _ c =>
    match c with
    | IsActiveNetworkManager => failed EmptyString
    | Cp _ _ => failed "cp: cannot create regular file"
    | CrontabInstall _ => failed "crontab: cannot write"
    | _ => healthy c
    end;
  fetched := fun _ _ => EmptyString;
  can_open := fun _ _ => true
|}.






Definition boot (fs : gmap string string) (table : option string)
    (operator : list string) : State :=
  {| files := fs; crontab := table; stdin := operator; trace := [] |}.

(** A provisioned host: the client binary is there. *)
Definition installed : gmap string string :=
  {[ zerotier_cli := "ELF"%string ]}.

Definition with_dhcpcd (content : string) : gmap string string :=
  <[ dhcpcd_conf := content ]> installed.

(** The operator's answers up to the confirmation: interface, bridge
    address, netmask, gateway, DNS, network identifier, "yes". *)
Definition answers (interface network : string) : list string :=
  [ interface; "192.168.1.2"; EmptyString; "192.168.1.1"; EmptyString; network; "yes" ]%string.

(** The configuration of the specification's example. *)
Definition example_config : RunConfig := {|
  physical_interface := "eth0";
  bridge_ip := "192.168.1.2";
  netmask := "255.255.255.0";
  gateway := "192.168.1.1";
  dns := "8.8.8.8 8.8.4.4";
  zerotier_network := None
|}.

(** A host whose exclusion file has no directive yet. *)
Definition unconfigured : State :=
  boot (with_dhcpcd ("hostname" +:+ nl)) None [].

(** A host whose exclusion file already denies [eth0] but not [zt*]. *)
Definition half_configured : State :=
  boot (with_dhcpcd ("denyinterfaces eth0" +:+ nl)) None [].

(** The operator bridges [eth1] and joins no network. *)
Definition bridging_eth1 : State :=
  boot (with_dhcpcd ("hostname" +:+ nl)) None (answers "eth1" EmptyString).

(** The exclusion file is there; the operator takes every default. *)
Definition defaults_with_dhcpcd : State :=
  boot (with_dhcpcd ("hostname" +:+ nl)) None (answers EmptyString EmptyString).

(** The operator types sixteen characters that are not hexadecimal. *)
Definition typing_z : State :=
  boot (with_dhcpcd ("hostname" +:+ nl)) None (answers EmptyString "zzzzzzzzzzzzzzzz").

(** The operator pastes the identifier with a blank on either side:
    eighteen characters. *)
Definition pasting_blanks : State :=
  boot (with_dhcpcd ("hostname" +:+ nl)) None (answers EmptyString " a84ac5c10a1b2c3d ").

(** The operator types an identifier that is one character short. *)
Definition typing_short : State :=
  boot (with_dhcpcd ("hostname" +:+ nl)) None (answers EmptyString "a84ac5c10a1b2c3").




(** The client binary is there; the operator will say yes. *)
Definition agreeing : State := boot installed None [ "yes"%string ].


(** No exclusion file, and an operator who says no. *)
Definition refusing : State := boot installed None [ "no"%string ].

(** A host with a network-interfaces file, ready for the writer. *)
Definition with_interfaces : State :=
  boot (<[ interfaces_file := "auto lo"%string ]> installed) None [].

End Demo.

(** ** Further sample hosts and operators *)

Module Demo2.

(** The script is started without administrative rights. *)
Definition unprivileged_host : World := {|
geteuid := 1000;
strftime := fun _ => "20251101_120000"%string;
respond := fun _ c => Demo.healthy c;
fetched := fun _ _ => EmptyString;
can_open := fun _ _ => true
|}.


(** A host on which no file can be opened. *)
Definition sealed_host : World := {|
geteuid := 0;
strftime := fun _ => "20251101_120000"%string;
respond := fun _ c =>
  match c with
  | IsActiveNetworkManager => Demo.failed EmptyString
  | _ => Demo.healthy c
  end;
fetched := fun _ _ => EmptyString;
can_open := fun _ _ => false
|}.



End Demo2.

(** ** Facts about strings *)

Section StringFacts.

Lemma append_cons (c : ascii) (a b : string) :
  String c a +:+ b = String c (a +:+ b).
Proof. reflexivity. Qed.

Lemma append_nil (b : string) : EmptyString +:+ b = b.
Proof. reflexivity. Qed.

Lemma length_append (a b : string) :
  String.length (a +:+ b) = String.length a + String.length b.
Proof.
  induction a as [|c a IH]; [reflexivity|].
  rewrite append_cons. simpl. now rewrite IH.
Qed.

Lemma append_neq_self (a b : string) : b <> EmptyString -> a +:+ b <> a.
Proof.
  intros Hb Heq. apply (f_equal String.length) in Heq.
  rewrite length_append in Heq. destruct b; [congruence | simpl in Heq; lia].
Qed.




(** A pattern without the character [c] cannot reach into what follows
    a [c]. *)
Lemma prefix_app_sep (c : ascii) (pat s t : string) :
  Py.has_char c pat = false ->
  String.prefix pat (s +:+ String c t) = String.prefix pat s.
Proof.
  revert s. induction pat as [|p pat IH]; intros s Hc.
  - destruct s; reflexivity.
  - simpl in Hc. apply orb_false_elim in Hc as [Hp Hc].
    destruct s as [|a s]; simpl.
    + destruct (ascii_dec p c) as [->|]; [|reflexivity].
      rewrite Ascii.eqb_refl in Hp. discriminate.
    + destruct (ascii_dec p a); [apply IH; assumption | reflexivity].
Qed.

Lemma occurrences_cons (pat : string) (a : ascii) (s : string) :
  Py.occurrences pat (String a s)
  = (if String.prefix pat (String a s) then 1 else 0) + Py.occurrences pat s.
Proof. reflexivity. Qed.


Lemma occurrences_app_sep (c : ascii) (pat s t : string) :
  pat <> EmptyString -> Py.has_char c pat = false ->
  Py.occurrences pat (s +:+ String c t)
  = Py.occurrences pat s + Py.occurrences pat (String c t).
Proof.
  intros Hne Hc. induction s as [|a s IH].
  - simpl (EmptyString +:+ _). destruct pat; [congruence | reflexivity].
  - rewrite append_cons, (occurrences_cons pat a (s +:+ String c t)),
      (occurrences_cons pat a s), IH, <- append_cons.
    rewrite prefix_app_sep by assumption. lia.
Qed.




Lemma contains_app_r (pat s t : string) :
  Py.contains pat t = true -> Py.contains pat (s +:+ t) = true.
Proof.
  intros H. induction s as [|a s IH]; [assumption|].
  rewrite append_cons. cbn [Py.contains]. rewrite IH. apply orb_true_r.
Qed.

Lemma has_char_append (c : ascii) (a b : string) :
  Py.has_char c (a +:+ b) = Py.has_char c a || Py.has_char c b.
Proof.
  induction a as [|x a IH]; [reflexivity|].
  rewrite append_cons. cbn [Py.has_char]. rewrite IH, orb_assoc. reflexivity.
Qed.

(** *** [strip] and [split] *)

Lemma lstrip_head (s : string) (c : ascii) (t : string) :
  Py.lstrip s = String c t -> Py.is_space c = false.
Proof.
  induction s as [|a s IH]; simpl; [discriminate|].
  destruct (Py.is_space a) eqn:Ha; [assumption|].
  intros [= -> _]. assumption.
Qed.

Lemma rstrip_head (c c' : ascii) (t t' : string) :
  Py.rstrip (String c t) = String c' t' -> c' = c.
Proof.
  simpl. destruct (Py.rstrip t); [destruct (Py.is_space c)|]; congruence.
Qed.

Lemma strip_head (s : string) (c : ascii) (t : string) :
  Py.strip s = String c t -> Py.is_space c = false.
Proof.
  unfold Py.strip. destruct (Py.lstrip s) as [|a u] eqn:Hl; [discriminate|].
  intros H. apply rstrip_head in H as ->. eapply lstrip_head; eassumption.
Qed.

Lemma split_aux_cur (s cur : string) :
  cur <> EmptyString -> Py.split_aux s cur <> [].
Proof.
  revert cur. induction s as [|a s IH]; intros cur Hc; simpl.
  - destruct cur; [congruence | discriminate].
  - destruct (Py.is_space a).
    + destruct cur; [congruence | discriminate].
    + apply IH. destruct cur; discriminate.
Qed.

(** A stripped string that is not empty has at least one field, so
    [.split()[-1]] on it never raises. *)
Lemma split_strip_last (s : string) :
  truthy (Py.strip s) = true ->
  exists filename, last (Py.split (Py.strip s)) = Some filename.
Proof.
  intros H. destruct (Py.strip s) as [|c t] eqn:Hs; [discriminate|].
  apply strip_head in Hs. unfold Py.split. simpl. rewrite Hs.
  destruct (last (Py.split_aux t (EmptyString +:+ String c EmptyString))) eqn:Hl;
    [eauto|].
  apply last_None in Hl. exfalso. revert Hl. apply split_aux_cur. discriminate.
Qed.


End StringFacts.

(** ** Reasoning rules of the monad *)

Section Rules.

Context (W : World) (F : Frame).

Lemma within_refl (s : State) : within F s s.
Proof.
  repeat split; try reflexivity. exists []. split; [reflexivity | constructor].
Qed.

Lemma within_trans (s1 s2 s3 : State) :
  within F s1 s2 -> within F s2 s3 -> within F s1 s3.
Proof.
  intros (Hf1 & Hi1 & Hc1 & n1 & Ht1 & Ha1) (Hf2 & Hi2 & Hc2 & n2 & Ht2 & Ha2).
  repeat split.
  - intros p Hp. rewrite Hf2, Hf1 by assumption. reflexivity.
  - intros H. rewrite Hi2, Hi1 by assumption. reflexivity.
  - intros H. rewrite Hc2, Hc1 by assumption. reflexivity.
  - exists (n2 ++ n1). split.
    + rewrite Ht2, Ht1. apply app_assoc.
    + apply Forall_app. split; assumption.
Qed.

Lemma within_log (e : Event) (s : State) : allowed F e -> within F s (log e s).
Proof.
  intros He. repeat split; try reflexivity.
  exists [e]. split; [reflexivity | repeat constructor; assumption].
Qed.

Lemma respects_ret {A : Type} (a : A) : respects F (mret a : M A).
Proof. intros s r s' [= <- <-]. apply within_refl. Qed.

Lemma respects_raise {A : Type} (e : Exn) : respects F (raise e : M A).
Proof. intros s r s' [= <- <-]. apply within_refl. Qed.

Lemma respects_bind {A B : Type} (m : M A) (k : A -> M B) :
  respects F m -> (forall a, respects F (k a)) -> respects F (bind m k).
Proof.
  intros Hm Hk s r s' Hrun. unfold bind in Hrun.
  destruct (m s) as [[a|e] s1] eqn:E.
  - eapply within_trans; [eapply Hm, E | eapply Hk, Hrun].
  - injection Hrun as <- <-. eapply Hm, E.
Qed.

Lemma respects_seq {A B : Type} (m : M A) (k : A -> M B) :
  respects F m -> (forall a, respects F (k a)) -> respects F (mbind k m).
Proof. apply respects_bind. Qed.

Lemma respects_try_except {A : Type} (m : M A) (h : Exn -> M A) :
  respects F m -> (forall e, respects F (h e)) -> respects F (try_except m h).
Proof.
  intros Hm Hh s r s' Hrun. unfold try_except in Hrun.
  destruct (m s) as [[a|e] s1] eqn:E.
  - injection Hrun as <- <-. eapply Hm, E.
  - destruct (is_Exception e).
    + eapply within_trans; [eapply Hm, E | eapply Hh, Hrun].
    + injection Hrun as <- <-. eapply Hm, E.
Qed.

Lemma respects_try_except_called {A : Type} (m : M A)
    (h : CompletedProcess -> M A) :
  respects F m -> (forall e, respects F (h e)) ->
  respects F (try_except_called m h).
Proof.
  intros Hm Hh s r s' Hrun. unfold try_except_called in Hrun.
  destruct (m s) as [[a|e] s1] eqn:E.
  - injection Hrun as <- <-. eapply Hm, E.
  - destruct e; try (injection Hrun as <- <-; eapply Hm, E).
    eapply within_trans; [eapply Hm, E | eapply Hh, Hrun].
Qed.

Lemma respects_when (b : bool) (m : M unit) :
  respects F m -> respects F (when b m).
Proof. intros Hm. destruct b; [exact Hm | apply respects_ret]. Qed.

Lemma respects_emit (e : Event) : allowed F e -> respects F (emit e).
Proof. intros He s r s' [= <- <-]. apply within_log, He. Qed.

Lemma respects_input (prompt : string) :
  ~ keeps_stdin F -> (forall line, allowed F (EvInput prompt line)) ->
  respects F (input prompt).
Proof.
  intros Hk Ha s r s' Hrun. unfold input in Hrun.
  destruct (stdin s) as [|line rest].
  - injection Hrun as <- <-. apply within_refl.
  - injection Hrun as <- <-. repeat split; try reflexivity; try tauto.
    exists [EvInput prompt line]. split; [reflexivity | repeat constructor; apply Ha].
Qed.

Lemma respects_os_path_exists (path : string) : respects F (os_path_exists path).
Proof. intros s r s' [= <- <-]. apply within_refl. Qed.

Lemma respects_os_path_getsize (path : string) : respects F (os_path_getsize path).
Proof.
  intros s r s' Hrun. unfold os_path_getsize in Hrun.
  destruct (files s !! path); injection Hrun as <- <-; apply within_refl.
Qed.

Lemma respects_read_file (path : string) : respects F (read_file W path).
Proof.
  intros s r s' Hrun. unfold read_file in Hrun.
  destruct (can_open W (now s) path); [destruct (files s !! path)|];
    injection Hrun as <- <-; apply within_refl.
Qed.

Lemma respects_time_strftime : respects F (time_strftime W).
Proof. intros s r s' [= <- <-]. apply within_refl. Qed.

Lemma within_set_file (path data : string) (s : State) :
  ~ keeps_path F path -> within F s (set_file path data s).
Proof.
  intros Hk. repeat split; try reflexivity.
  - intros p Hp. simpl. apply lookup_insert_ne. intros ->. tauto.
  - exists []. split; [reflexivity | constructor].
Qed.

Lemma within_set_crontab (table : string) (s : State) :
  ~ keeps_crontab F -> within F s (set_crontab table s).
Proof.
  intros Hk. repeat split; try reflexivity; try tauto.
  exists []. split; [reflexivity | constructor].
Qed.

Lemma respects_write_file (path : string) (mode : Mode) (data : string) :
  ~ keeps_path F path -> allowed F (EvWrite path mode data) ->
  respects F (write_file W path mode data).
Proof.
  intros Hk Ha s r s' Hrun. unfold write_file in Hrun.
  destruct (can_open W (now s) path); injection Hrun as <- <-.
  - eapply within_trans; [apply within_set_file, Hk | apply within_log, Ha].
  - apply within_refl.
Qed.

Lemma within_effect (c : Command) (r : CompletedProcess) (s : State) :
  command_allowed F c -> within F s (effect W c r s).
Proof.
  intros [_ Hc]. destruct c; simpl; try apply within_refl.
  - destruct (returncode r =? 0)%Z; [|apply within_refl].
    destruct (files s !! filepath); [|apply within_refl].
    apply within_set_file, Hc.
  - apply within_set_file, Hc.
  - destruct (returncode r =? 0)%Z; [|apply within_refl].
    apply within_set_crontab, Hc.
Qed.

Lemma respects_subprocess_run (c : Command) (check capture_output : bool) :
  command_allowed F c -> respects F (subprocess_run W c check capture_output).
Proof.
  intros Hc s r s' Hrun. unfold subprocess_run in Hrun.
  assert (Hw : within F s (log (EvRun c (answer W c s)) (effect W c (answer W c s) s))).
  { eapply within_trans; [apply within_effect, Hc | apply within_log, Hc]. }
  destruct (check && negb (returncode (answer W c s) =? 0)%Z);
    injection Hrun as <- <-; exact Hw.
Qed.

Hypothesis prints_allowed : forall m text, allowed F (EvPrint m text).

Lemma respects_print_header text : respects F (print_header text).
Proof. apply respects_emit, prints_allowed. Qed.
Lemma respects_print_success text : respects F (print_success text).
Proof. apply respects_emit, prints_allowed. Qed.
Lemma respects_print_error text : respects F (print_error text).
Proof. apply respects_emit, prints_allowed. Qed.
Lemma respects_print_warning text : respects F (print_warning text).
Proof. apply respects_emit, prints_allowed. Qed.
Lemma respects_print_info text : respects F (print_info text).
Proof. apply respects_emit, prints_allowed. Qed.
Lemma respects_print text : respects F (print text).
Proof. apply respects_emit, prints_allowed. Qed.

Lemma respects_run_command (c : Command) (description : string)
    (check capture_output : bool) :
  command_allowed F c ->
  respects F (run_command W c description check capture_output).
Proof.
  intros Hc. unfold run_command.
  apply respects_seq; [apply respects_when, respects_print_info | intros _].
  apply respects_try_except_called; [apply respects_subprocess_run, Hc | intros e].
  apply respects_seq; [|intros _; apply respects_ret].
  apply respects_when, respects_seq; [apply respects_print_error | intros _].
  apply respects_when, respects_print.
Qed.

End Rules.

(** A frame that keeps more and allows less is respected all the more. *)
Lemma respects_weaken {A : Type} (F F' : Frame) (m : M A) :
  (forall p, keeps_path F' p -> keeps_path F p) ->
  (keeps_stdin F' -> keeps_stdin F) ->
  (keeps_crontab F' -> keeps_crontab F) ->
  (forall e, allowed F e -> allowed F' e) ->
  respects F m -> respects F' m.
Proof.
  intros Hp Hi Hc Ha Hm s r s' Hrun.
  destruct (Hm s r s' Hrun) as (Hf & Hs & Hcr & new & Ht & Hall).
  repeat split; auto. exists new. split; [assumption|].
  eapply Forall_impl; [exact Hall | exact Ha].
Qed.

(** *** Rules for [returns] *)

Section Returns.

Context (W : World).

Lemma returns_ret {A : Type} (a : A) : returns (mret a : M A).
Proof. intros s. eexists _, _. reflexivity. Qed.

Lemma returns_bind {A B : Type} (m : M A) (k : A -> M B) :
  returns m -> (forall a, returns (k a)) -> returns (bind m k).
Proof.
  intros Hm Hk s. destruct (Hm s) as (a & s1 & E).
  destruct (Hk a s1) as (b & s2 & E2).
  exists b, s2. unfold bind. rewrite E. exact E2.
Qed.

Lemma returns_seq {A B : Type} (m : M A) (k : A -> M B) :
  returns m -> (forall a, returns (k a)) -> returns (mbind k m).
Proof. apply returns_bind. Qed.

Lemma returns_when (b : bool) (m : M unit) : returns m -> returns (when b m).
Proof. intros Hm. destruct b; [exact Hm | apply returns_ret]. Qed.

Lemma returns_try_except {A : Type} (m : M A) (h : Exn -> M A) :
  returns m -> returns (try_except m h).
Proof.
  intros Hm s. destruct (Hm s) as (a & s1 & E).
  exists a, s1. unfold try_except. rewrite E. reflexivity.
Qed.

Lemma returns_emit (e : Event) : returns (emit e).
Proof. intros s. eexists _, _. reflexivity. Qed.

Lemma returns_os_path_exists (path : string) : returns (os_path_exists path).
Proof. intros s. eexists _, _. reflexivity. Qed.

(** The command executor hands every failure back as a result: with
    [check] the [CalledProcessError] is caught and returned. *)
Lemma returns_run_command (c : Command) (description : string)
    (check capture_output : bool) :
  returns (run_command W c description check capture_output).
Proof.
  unfold run_command.
  apply returns_seq; [apply returns_when, returns_emit | intros _].
  intros s. unfold try_except_called, subprocess_run.
  destruct (check && negb (returncode (answer W c s) =? 0)%Z).
  - apply returns_seq; [|intros _; apply returns_ret].
    apply returns_when, returns_seq; [apply returns_emit | intros _].
    apply returns_when, returns_emit.
  - eexists _, _. reflexivity.
Qed.

End Returns.

(** Symbolic execution of the straight-line parts of the script. *)
Ltac respects_step :=
  lazymatch goal with
  | |- respects _ (bind _ _) => apply respects_bind; [| intros ?]
  | |- respects _ (mbind _ _) => apply respects_seq; [| intros ?]
  | |- respects _ (mret _) => apply respects_ret
  | |- respects _ (raise _) => apply respects_raise
  | |- respects _ (sys_exit _) => apply respects_raise
  | |- respects _ (when _ _) => apply respects_when
  | |- respects _ (try_except _ _) => apply respects_try_except; [| intros ?]
  | |- respects _ (print_header _) => apply respects_print_header
  | |- respects _ (print_success _) => apply respects_print_success
  | |- respects _ (print_error _) => apply respects_print_error
  | |- respects _ (print_warning _) => apply respects_print_warning
  | |- respects _ (print_info _) => apply respects_print_info
  | |- respects _ (print _) => apply respects_print
  | |- respects _ (os_path_exists _) => apply respects_os_path_exists
  | |- respects _ (os_path_getsize _) => apply respects_os_path_getsize
  | |- respects _ (read_file _ _) => apply respects_read_file
  | |- respects _ (time_strftime _) => apply respects_time_strftime
  | |- respects _ (run_command _ _ _ _ _) => apply respects_run_command
  | |- respects _ (write_file _ _ _ _) => apply respects_write_file
  | |- respects _ (input _) => apply respects_input
  | |- respects _ (time_sleep _) => apply respects_emit
  | |- respects _ (os_makedirs _) => apply respects_ret
  | |- respects _ (emit _) => apply respects_emit
  | |- respects _ (if ?b then _ else _) => destruct b
  | |- respects _ (match ?o with _ => _ end) => destruct o
  end.

Ltac returns_step :=
  lazymatch goal with
  | |- returns (bind _ _) => apply returns_bind; [| intros ?]
  | |- returns (mbind _ _) => apply returns_seq; [| intros ?]
  | |- returns (mret _) => apply returns_ret
  | |- returns (when _ _) => apply returns_when
  | |- returns (try_except _ _) => apply returns_try_except
  | |- returns (print_header _) => apply returns_emit
  | |- returns (print_success _) => apply returns_emit
  | |- returns (print_error _) => apply returns_emit
  | |- returns (print_warning _) => apply returns_emit
  | |- returns (print_info _) => apply returns_emit
  | |- returns (print _) => apply returns_emit
  | |- returns (os_path_exists _) => apply returns_os_path_exists
  | |- returns (os_makedirs _) => apply returns_ret
  | |- returns (run_command _ _ _ _ _) => apply returns_run_command
  | |- returns (if ?b then _ else _) => destruct b
  | |- returns (match ?o with _ => _ end) => destruct o
  end.

(** Unfolding of the monad and of the primitives, for running a piece of
    the script on a symbolic state. *)
Ltac unfold_monad :=
  unfold sys_exit, when, print_header, print_success, print_error, print_warning,
    print_info, print, run_command, subprocess_run, try_except, try_except_called,
    os_path_exists, os_path_getsize, os_makedirs, time_strftime, time_sleep, emit,
    raise,
    mbind, M_bind, bind, mret, M_ret, now in *.

Ltac run :=
  unfold_monad;
  cbn -[String.append String.length Nat.ltb Z.eqb lookup insert].

Ltac run_in H :=
  unfold_monad;
  cbn -[String.append String.length Nat.ltb Nat.eqb Z.eqb lookup insert] in H.

(** ** The package provisioner *)

Lemma output_file_not_cli (x : string) : output_file_of x <> zerotier_cli.
Proof.
  intros H. apply (f_equal (String.get 1)) in H. vm_compute in H. discriminate.
Qed.

Ltac side_condition :=
  try solve
    [ intros; simpl; tauto
    | split; [intros; simpl; tauto
             | simpl; first [tauto | apply output_file_not_cli]] ].

Ltac respects_auto :=
  repeat first
    [ solve [eauto 2]
    | respects_step; side_condition ].

Ltac returns_auto :=
  repeat first
    [ solve [eauto 2]
    | returns_step ].

Section Provisioner.

Context (W : World).

(** The verdict of one download, from the state the download leaves. *)
Lemma download_package_direct_result (package_url output_path : string)
    (s : State) :
  let r := respond W (S (now s)) (Wget output_path package_url) in
  let data := fetched W (S (now s)) package_url in
  let took := (returncode r =? 0)%Z && (1000 <? String.length data) in
  exists s',
    download_package_direct W package_url output_path s = (Ok took, s')
    /\ files s' !! output_path = Some data
    /\ exists prints,
         trace s' = prints
                    ++ EvRun (Wget output_path package_url) r
                    :: EvPrint Info ("Downloading from: " +:+ package_url)
                    :: trace s
         /\ Forall is_print prints.
Proof.
  intros r data took. subst r data took. unfold download_package_direct. run.
  rewrite lookup_insert_eq.
  destruct (returncode _ =? 0)%Z; cbn -[String.length Nat.ltb lookup insert].
  - rewrite lookup_insert_eq.
    destruct (1000 <? _); cbn -[lookup insert];
      (eexists; split; [reflexivity|]; cbn -[lookup insert];
       rewrite lookup_insert_eq; split; [reflexivity|]).
    + eexists [_]. split; [reflexivity | repeat constructor].
    + exists []. split; [reflexivity | constructor].
  - eexists. split; [reflexivity|]. cbn -[lookup insert].
    rewrite lookup_insert_eq.
    split; [reflexivity|]. exists []. split; [reflexivity | constructor].
Qed.

Lemma returns_download_package_direct (package_url output_path : string) :
  returns (download_package_direct W package_url output_path).
Proof.
  intros s.
  destruct (download_package_direct_result package_url output_path s)
    as (s' & E & _).
  eauto.
Qed.

End Provisioner.

(** *** The download tiers *)

Section Tiers.

Context (W : World).

Lemma downloads_at_app (base : nat) (older newer : list Event) :
  downloads_at W base (newer ++ older)
  = downloads_at W base older ++ downloads_at W (base + length older) newer.
Proof.
  induction newer as [|e newer IH]; simpl.
  - now rewrite app_nil_r.
  - rewrite IH, <- app_assoc. f_equal. f_equal.
    rewrite length_app.
    replace (base + (length newer + length older))
      with (base + length older + length newer) by lia.
    reflexivity.
Qed.

Lemma downloads_at_quiet (base : nat) (new : list Event) :
  Forall (fun e => ~ download_event e) new -> downloads_at W base new = [].
Proof.
  induction 1 as [|e new He _ IH]; simpl; [reflexivity|].
  rewrite IH. destruct e as [[] ?| | | |]; simpl in *; tauto.
Qed.

Lemma logs_bind {A B : Type} (m : M A) (k : A -> M B) (s s1 s' : State)
    (a : A) (r : Res B) (log1 log2 : list Attempt) :
  logs W m s (Ok a) s1 log1 -> logs W (k a) s1 r s' log2 ->
  logs W (bind m k) s r s' (log1 ++ log2).
Proof.
  intros (n1 & E1 & T1 & L1) (n2 & E2 & T2 & L2).
  exists (n2 ++ n1). unfold bind. rewrite E1, E2. split; [reflexivity|].
  split; [rewrite T2, T1; apply app_assoc|].
  rewrite downloads_at_app, L1. f_equal.
  rewrite <- L2. f_equal. unfold now. rewrite T1, length_app. lia.
Qed.

Lemma logs_seq {A B : Type} (m : M A) (k : A -> M B) (s s1 s' : State)
    (a : A) (r : Res B) (log1 log2 : list Attempt) :
  logs W m s (Ok a) s1 log1 -> logs W (k a) s1 r s' log2 ->
  logs W (mbind k m) s r s' (log1 ++ log2).
Proof. apply logs_bind. Qed.

Lemma logs_quiet {A : Type} (m : M A) (s : State) (r : Res A) (s' : State) :
  respects no_download_frame m -> m s = (r, s') -> logs W m s r s' [].
Proof.
  intros Hm E. destruct (Hm s r s' E) as (_ & _ & _ & new & T & Hall).
  exists new. repeat split; try assumption. apply downloads_at_quiet, Hall.
Qed.

Lemma logs_ret {A : Type} (a : A) (s : State) : logs W (mret a) s (Ok a) s [].
Proof. exists []. repeat split. Qed.

(** A returning stretch without downloads adds nothing to the log. *)
Lemma logs_quiet_returns {A : Type} (m : M A) (s : State) :
  respects no_download_frame m -> returns m ->
  exists a s1, logs W m s (Ok a) s1 [].
Proof.
  intros Hq Hr. destruct (Hr s) as (a & s1 & E).
  exists a, s1. apply logs_quiet; assumption.
Qed.

Lemma logs_download_package_direct (package_url output_path : string)
    (s : State) :
  exists took s',
    logs W (download_package_direct W package_url output_path) s (Ok took) s'
      [ {| att_output := output_path; att_url := package_url;
           att_accepted := took |} ].
Proof.
  destruct (download_package_direct_result W package_url output_path s)
    as (s' & E & _ & prints & T & Hp).
  eexists _, s'.
  exists (prints ++ [EvRun (Wget output_path package_url)
                       (respond W (S (now s)) (Wget output_path package_url));
                     EvPrint Info ("Downloading from: " +:+ package_url)]).
  split; [exact E|]. split; [rewrite T, <- app_assoc; reflexivity|].
  rewrite downloads_at_app. simpl.
  rewrite downloads_at_quiet.
  - unfold accepted, now. simpl. repeat f_equal; lia.
  - eapply Forall_impl; [exact Hp|]. intros [] ?; simpl in *; tauto.
Qed.

Lemma first_success_nil : first_success [] [] None.
Proof. split; [reflexivity | constructor]. Qed.

Lemma first_success_one_accepted (output_path package_url : string)
    (rest : list (string * string)) :
  first_success ((output_path, package_url) :: rest)
    [ {| att_output := output_path; att_url := package_url;
         att_accepted := true |} ] (Some output_path).
Proof.
  exists [], {| att_output := output_path; att_url := package_url;
               att_accepted := true |}, rest.
  repeat split. constructor.
Qed.

Lemma first_success_after_rejected (output_path package_url : string)
    (cands : list (string * string)) (log : list Attempt)
    (result : option string) :
  first_success cands log result ->
  first_success ((output_path, package_url) :: cands)
    ({| att_output := output_path; att_url := package_url;
        att_accepted := false |} :: log) result.
Proof.
  destruct result as [out|]; simpl.
  - intros (before & a & untried & -> & -> & Hb & Ha & Ho).
    exists ({| att_output := output_path; att_url := package_url;
               att_accepted := false |} :: before), a, untried.
    repeat split; try assumption. constructor; [reflexivity | assumption].
  - intros [<- Hall]. split; [reflexivity|].
    constructor; [reflexivity | assumption].
Qed.

Lemma first_success_app_none (c1 c2 : list (string * string))
    (log1 log2 : list Attempt) (result : option string) :
  first_success c1 log1 None -> first_success c2 log2 result ->
  first_success (c1 ++ c2) (log1 ++ log2) result.
Proof.
  intros [<- Hr1]. revert Hr1. induction log1 as [|[o u b] log1 IH]; intros Hr1 H2.
  - exact H2.
  - inversion Hr1 as [|? ? Hb Hrest]; subst. unfold rejected in Hb. simpl in Hb.
    subst b. simpl. apply first_success_after_rejected. apply IH; assumption.
Qed.

Lemma first_success_app_some (c1 c2 : list (string * string))
    (log1 : list Attempt) (output_file : string) :
  first_success c1 log1 (Some output_file) ->
  first_success (c1 ++ c2) log1 (Some output_file).
Proof.
  intros (before & a & untried & -> & -> & Hb & Ha & Ho).
  exists before, a, (untried ++ c2). repeat split; try assumption.
  rewrite <- app_assoc. reflexivity.
Qed.

End Tiers.

Section TierOrder.

Context (W : World).

Lemma no_download_prints : forall m text, allowed no_download_frame (EvPrint m text).
Proof. intros m text. simpl. tauto. Qed.

Lemma tries_quiet_bind {A : Type} (m : M A) (k : A -> M (option string))
    (cands : list (string * string)) (s : State) :
  respects no_download_frame m -> returns m ->
  (forall a s1, tries W cands (k a) s1) -> tries W cands (bind m k) s.
Proof.
  intros Hq Hr Hk.
  destruct (logs_quiet_returns W m s Hq Hr) as (a & s1 & L1).
  destruct (Hk a s1) as (result & s' & log & L2 & Hf).
  exists result, s', log. split; [|exact Hf].
  change log with ([] ++ log). eapply logs_bind; eassumption.
Qed.

Lemma tries_quiet_seq {A : Type} (m : M A) (k : A -> M (option string))
    (cands : list (string * string)) (s : State) :
  respects no_download_frame m -> returns m ->
  (forall a s1, tries W cands (k a) s1) -> tries W cands (mbind k m) s.
Proof. apply tries_quiet_bind. Qed.

Lemma tries_ret_none (s : State) : tries W [] (mret None) s.
Proof.
  exists None, s, []. split; [apply logs_ret | apply first_success_nil].
Qed.

(** One candidate, then the rest when it is not accepted. *)
Lemma tries_download_then (package_url output_path : string)
    (rest : M (option string)) (cands : list (string * string)) (s : State) :
  (forall s1, tries W cands rest s1) ->
  tries W ((output_path, package_url) :: cands)
    (let* downloaded := download_package_direct W package_url output_path in
     if downloaded then mret (Some output_path) else rest) s.
Proof.
  intros Hrest.
  destruct (logs_download_package_direct W package_url output_path s)
    as ([|] & s1 & L1).
  - exists (Some output_path), s1; eexists; split.
    + eapply logs_bind; [exact L1 | apply logs_ret].
    + apply first_success_one_accepted.
  - destruct (Hrest s1) as (result & s' & log & L2 & Hf).
    exists result, s'; eexists; split.
    + eapply logs_bind; [exact L1 | exact L2].
    + apply first_success_after_rejected, Hf.
Qed.

Lemma tries_could_not_download (package_name : string) (s : State) :
  tries W [] (could_not_download package_name) s.
Proof.
  unfold could_not_download. apply tries_quiet_seq.
  - apply respects_print_error, no_download_prints.
  - apply returns_emit.
  - intros _ s1. apply tries_ret_none.
Qed.

Lemma tries_download_from_snapshot (package_name arch : string) (s : State) :
  tries W (tier_snapshot package_name arch)
    (download_from_snapshot W package_name arch) s.
Proof.
  unfold download_from_snapshot, tier_snapshot. apply tries_quiet_seq.
  - apply respects_print_info, no_download_prints.
  - apply returns_emit.
  - intros _ s1. destruct (url_for snapshot_urls package_name arch) as [url|].
    + cbv zeta. apply tries_download_then. intros s2.
      apply tries_could_not_download.
    + apply tries_could_not_download.
Qed.

Lemma tries_try_mirrors (filename : string) (l : list string) (s : State) :
  tries W (map (fun mirror => (output_file_of filename, mirror +:+ filename)) l)
    (try_mirrors W filename l) s.
Proof.
  revert s. induction l as [|mirror l IH]; intros s; simpl.
  - apply tries_ret_none.
  - apply tries_download_then. exact IH.
Qed.

(** When the first group of candidates is exhausted the second is tried. *)
Lemma tries_app (c1 c2 : list (string * string)) (m1 m2 : M (option string))
    (s : State) :
  tries W c1 m1 s -> (forall s1, tries W c2 m2 s1) ->
  tries W (c1 ++ c2)
    (let* found := m1 in
     match found with
     | Some output_file => mret (Some output_file)
     | None => m2
     end) s.
Proof.
  intros (r1 & s1 & log1 & L1 & F1) H2. destruct r1 as [out|].
  - exists (Some out), s1, log1. split.
    + rewrite <- (app_nil_r log1). eapply logs_bind; [exact L1 | apply logs_ret].
    + apply first_success_app_some, F1.
  - destruct (H2 s1) as (r2 & s2 & log2 & L2 & F2).
    exists r2, s2, (log1 ++ log2). split.
    + eapply logs_bind; [exact L1 | exact L2].
    + apply first_success_app_none; assumption.
Qed.

Lemma tries_download_from_mirrors (package_name arch : string) (s : State) :
  exists filename,
    tries W (tier_mirrors filename ++ tier_snapshot package_name arch)
      (download_from_mirrors W package_name arch) s.
Proof.
  unfold download_from_mirrors.
  destruct (returns_emit (EvPrint Info "Searching for package URL via apt-cache...") s)
    as ([] & s1 & E1).
  destruct (returns_run_command W (AptCacheShowFilename package_name) EmptyString false true s1)
    as (result & s2 & E2).
  set (cond := (returncode result =? 0)%Z && truthy (Py.strip (stdout result))).
  assert (Hstep : forall cands (k : CompletedProcess -> M (option string)),
             tries W cands (k result) s2 ->
             tries W cands
               (print_info "Searching for package URL via apt-cache...";;
                let* result := run_command W (AptCacheShowFilename package_name)
                                 EmptyString false true in k result) s).
  { intros cands k (r & s' & log & L & Hf). exists r, s', log. split; [|exact Hf].
    change log with ([] ++ ([] ++ log)).
    eapply logs_seq.
    - apply logs_quiet; [apply respects_print_info, no_download_prints | exact E1].
    - eapply logs_bind; [|exact L].
      apply logs_quiet; [|exact E2].
      apply respects_run_command; [apply no_download_prints|].
      split; [intros r0; simpl; tauto | exact I]. }
  destruct cond eqn:Hc; subst cond.
  - apply andb_true_iff in Hc as [Hrc Hout].
    destruct (split_strip_last _ Hout) as (filename & Hlast).
    exists (Some filename). apply Hstep. rewrite Hrc, Hout, Hlast. simpl andb. cbv iota.
    apply tries_app; [apply tries_try_mirrors|].
    intros s3. apply tries_download_from_snapshot.
  - exists None. apply Hstep. rewrite Hc. apply tries_download_from_snapshot.
Qed.

Lemma tries_download_deb_package_improved (package_name arch : string)
    (s : State) :
  exists filename,
    tries W (tier_known package_name arch ++ tier_mirrors filename
             ++ tier_snapshot package_name arch)
      (download_deb_package_improved W package_name arch) s.
Proof.
  unfold download_deb_package_improved, tier_known.
  destruct (returns_emit (EvPrint Info ("Attempting to download " +:+ package_name +:+ "...")) s)
    as ([] & s1 & E1).
  assert (Hstep : forall cands (k : M (option string)),
             tries W cands k s1 ->
             tries W cands
               (print_info ("Attempting to download " +:+ package_name +:+ "...");;
                os_makedirs temp_dir;; k) s).
  { intros cands k (r & s' & log & L & Hf). exists r, s', log. split; [|exact Hf].
    change log with ([] ++ [] ++ log). eapply logs_seq.
    - apply logs_quiet; [apply respects_print_info, no_download_prints | exact E1].
    - eapply logs_seq; [apply logs_ret | exact L]. }
  destruct (url_for known_packages package_name arch) as [known_url|].
  - cbv zeta.
    destruct (returns_emit (EvPrint Info "Trying known working version...") s1)
      as ([] & s2 & E2).
    (* the mirror tier's file name is known once the known URL has failed *)
    destruct (logs_download_package_direct W known_url (output_file_of known_url) s2)
      as ([|] & s3 & L3).
    + exists None. apply Hstep.
      exists (Some (output_file_of known_url)), s3; eexists; split.
      * eapply logs_seq.
        -- apply logs_quiet; [apply respects_print_info, no_download_prints | exact E2].
        -- eapply logs_bind; [exact L3 | apply logs_ret].
      * apply first_success_one_accepted.
    + destruct (tries_download_from_mirrors package_name arch s3)
        as (filename & r & s' & log & L & Hf).
      exists filename. apply Hstep.
      exists r, s'; eexists; split.
      * eapply logs_seq.
        -- apply logs_quiet; [apply respects_print_info, no_download_prints | exact E2].
        -- eapply logs_bind; [exact L3 | exact L].
      * simpl. apply first_success_after_rejected, Hf.
  - destruct (tries_download_from_mirrors package_name arch s1) as (filename & H).
    exists filename. apply Hstep. exact H.
Qed.

Lemma returns_download_deb_package_improved (package_name arch : string) :
  returns (download_deb_package_improved W package_name arch).
Proof.
  intros s.
  destruct (tries_download_deb_package_improved package_name arch s)
    as (_ & r & s' & log & (new & E & _) & _).
  eauto.
Qed.

End TierOrder.

(** ** What each stage touches *)

Section ProvisionerFrame.

Context (W : World).

Lemma returns_install_deb_package (deb_file : string) :
  returns (install_deb_package W deb_file).
Proof. unfold install_deb_package. returns_auto. Qed.

Lemma returns_install_package (arch package : string) (failed : list string) :
  returns (install_package W arch package failed).
Proof.
  pose proof (returns_download_deb_package_improved W).
  pose proof returns_install_deb_package.
  unfold install_package. returns_auto.
Qed.

Lemma returns_install_each (arch : string) (l failed : list string) :
  returns (install_each W arch l failed).
Proof.
  revert failed. induction l as [|package l IH]; intros failed; simpl.
  - apply returns_ret.
  - apply returns_bind; [apply returns_install_package | intros a; apply IH].
Qed.

Lemma returns_print_manual_commands (l : list string) :
  returns (print_manual_commands l).
Proof.
  induction l as [|pkg l IH]; simpl; [apply returns_ret|].
  apply returns_seq; [apply returns_emit | intros _; exact IH].
Qed.

Lemma returns_get_architecture : returns (get_architecture W).
Proof. unfold get_architecture. returns_auto. Qed.

(** The package loop and its report always return: no failure of a
    package raises or exits. *)
Lemma returns_install_required : returns (install_required W).
Proof.
  pose proof returns_get_architecture.
  pose proof returns_install_each.
  pose proof returns_print_manual_commands.
  unfold install_required. returns_auto.
Qed.

Lemma provisioner_download_package_direct (package_url x : string) :
  respects provisioner_frame
    (download_package_direct W package_url (output_file_of x)).
Proof. unfold download_package_direct. respects_auto. Qed.

Lemma provisioner_download_from_snapshot (package_name arch : string) :
  respects provisioner_frame (download_from_snapshot W package_name arch).
Proof.
  pose proof provisioner_download_package_direct.
  unfold download_from_snapshot, could_not_download. respects_auto.
Qed.

Lemma provisioner_try_mirrors (filename : string) (l : list string) :
  respects provisioner_frame (try_mirrors W filename l).
Proof.
  pose proof provisioner_download_package_direct.
  induction l as [|mirror l IH]; simpl; respects_auto.
Qed.

Lemma provisioner_download_from_mirrors (package_name arch : string) :
  respects provisioner_frame (download_from_mirrors W package_name arch).
Proof.
  pose proof provisioner_download_from_snapshot.
  pose proof provisioner_try_mirrors.
  unfold download_from_mirrors. respects_auto.
Qed.

Lemma provisioner_download_deb_package_improved (package_name arch : string) :
  respects provisioner_frame
    (download_deb_package_improved W package_name arch).
Proof.
  pose proof provisioner_download_package_direct.
  pose proof provisioner_download_from_mirrors.
  unfold download_deb_package_improved. respects_auto.
Qed.

Lemma provisioner_install_deb_package (deb_file : string) :
  respects provisioner_frame (install_deb_package W deb_file).
Proof. unfold install_deb_package. respects_auto. Qed.

Lemma provisioner_install_package (arch package : string)
    (failed : list string) :
  respects provisioner_frame (install_package W arch package failed).
Proof.
  pose proof provisioner_download_deb_package_improved.
  pose proof provisioner_install_deb_package.
  unfold install_package. respects_auto.
Qed.

Lemma provisioner_install_each (arch : string) (l failed : list string) :
  respects provisioner_frame (install_each W arch l failed).
Proof.
  pose proof provisioner_install_package.
  revert failed. induction l as [|package l IH]; intros failed; simpl;
    respects_auto.
Qed.

Lemma provisioner_print_manual_commands (l : list string) :
  respects provisioner_frame (print_manual_commands l).
Proof. induction l as [|pkg l IH]; simpl; respects_auto. Qed.

Lemma provisioner_install_required :
  respects provisioner_frame (install_required W).
Proof.
  pose proof provisioner_install_each.
  pose proof provisioner_print_manual_commands.
  unfold install_required, get_architecture. respects_auto.
Qed.

Lemma provisioner_install_zerotier :
  respects provisioner_frame (install_zerotier W).
Proof. unfold install_zerotier. respects_auto. Qed.

End ProvisionerFrame.

Section OverlayFree.

Context (W : World).

Lemma no_overlay_of_provisioner {A : Type} (m : M A) :
  respects provisioner_frame m -> respects no_overlay_frame m.
Proof. apply respects_weaken; simpl; tauto. Qed.

Lemma no_overlay_check_critical (failed : list string) :
  respects no_overlay_frame (check_critical failed).
Proof. unfold check_critical. respects_auto. Qed.

Lemma no_overlay_install_packages : respects no_overlay_frame (install_packages W).
Proof.
  pose proof no_overlay_check_critical.
  unfold install_packages. respects_step.
  - apply no_overlay_of_provisioner, provisioner_install_required.
  - respects_step; [apply no_overlay_of_provisioner, provisioner_install_zerotier|].
    auto.
Qed.

Lemma no_overlay_backup_file (filepath : string) :
  respects no_overlay_frame (backup_file W filepath).
Proof. unfold backup_file. respects_auto. Qed.

Lemma no_overlay_handle_network_manager :
  respects no_overlay_frame (handle_network_manager W).
Proof. unfold handle_network_manager, detect_network_manager. respects_auto. Qed.

Lemma no_overlay_configure_dhcpcd_existing :
  respects no_overlay_frame (configure_dhcpcd_existing W).
Proof.
  pose proof no_overlay_backup_file.
  unfold configure_dhcpcd_existing. respects_auto.
Qed.

Lemma no_overlay_configure_dhcpcd : respects no_overlay_frame (configure_dhcpcd W).
Proof.
  pose proof no_overlay_handle_network_manager.
  pose proof no_overlay_configure_dhcpcd_existing.
  unfold configure_dhcpcd. respects_auto.
Qed.

Lemma no_overlay_configure_network_interfaces (config : RunConfig) :
  respects no_overlay_frame (configure_network_interfaces W config).
Proof.
  pose proof no_overlay_backup_file.
  unfold configure_network_interfaces. respects_auto.
Qed.

Lemma no_overlay_print_portal_instructions (config : RunConfig) :
  respects no_overlay_frame (print_portal_instructions W config).
Proof. unfold print_portal_instructions, get_zerotier_info. respects_auto. Qed.

Lemma no_overlay_print_final_instructions (config : RunConfig)
    (zt_interface : option string) :
  respects no_overlay_frame (print_final_instructions config zt_interface).
Proof. unfold print_final_instructions. respects_auto. Qed.

Lemma no_overlay_check_root : respects no_overlay_frame (check_root W).
Proof. unfold check_root. respects_auto. Qed.

Lemma no_overlay_input_ip_loop (fuel : nat) (prompt : string) :
  respects no_overlay_frame (input_ip_loop fuel prompt).
Proof. induction fuel as [|fuel IH]; simpl; respects_auto. Qed.

Lemma no_overlay_input_ip (prompt : string) :
  respects no_overlay_frame (input_ip prompt).
Proof. intros s r s' E. eapply no_overlay_input_ip_loop, E. Qed.

Lemma no_overlay_get_user_input : respects no_overlay_frame (get_user_input W).
Proof.
  pose proof no_overlay_input_ip.
  unfold get_user_input. respects_auto.
Qed.

(** Without a network identifier the rest of the run has no overlay
    stage in it. *)
Lemma no_overlay_provision (config : RunConfig) :
  zerotier_network config = None ->
  respects no_overlay_frame (provision W config).
Proof.
  intros Hnone.
  pose proof no_overlay_install_packages.
  pose proof no_overlay_configure_dhcpcd.
  pose proof no_overlay_configure_network_interfaces.
  pose proof no_overlay_print_portal_instructions.
  pose proof no_overlay_print_final_instructions.
  unfold provision. rewrite Hnone. cbn [truthy_opt]. respects_auto.
Qed.

End OverlayFree.

Section NetworkManagerFree.

Context (W : World).



End NetworkManagerFree.

Section PackageLoop.

Context (W : World).



End PackageLoop.

(** ** Operator input *)

Section Inputs.

Context (W : World).

Lemma bind_ok_inv {A B : Type} (m : M A) (k : A -> M B) (s s' : State) (b : B) :
  bind m k s = (Ok b, s') ->
  exists a s1, m s = (Ok a, s1) /\ k a s1 = (Ok b, s').
Proof.
  unfold bind. destruct (m s) as [[a|e] s1]; [eauto | discriminate].
Qed.

Lemma seq_ok_inv {A B : Type} (m : M A) (k : A -> M B) (s s' : State) (b : B) :
  mbind k m s = (Ok b, s') ->
  exists a s1, m s = (Ok a, s1) /\ k a s1 = (Ok b, s').
Proof. apply bind_ok_inv. Qed.

Lemma extends_refl (s : State) : extends s s.
Proof. exists []. reflexivity. Qed.

Lemma extends_trans (s1 s2 s3 : State) :
  extends s1 s2 -> extends s2 s3 -> extends s1 s3.
Proof.
  intros (n1 & T1) (n2 & T2). exists (n2 ++ n1).
  rewrite T2, T1. apply app_assoc.
Qed.

Lemma within_extends (F : Frame) (s s' : State) : within F s s' -> extends s s'.
Proof. intros (_ & _ & _ & new & T & _). exists new. exact T. Qed.


(** The fuel of the validation loop is never used up: with at least as
    much fuel as there are pending lines the loop does the same. *)
Lemma input_ip_fuel (prompt : string) (fuel1 fuel2 : nat) (s : State) :
  length (stdin s) <= fuel1 -> length (stdin s) <= fuel2 ->
  input_ip_loop fuel1 prompt s = input_ip_loop fuel2 prompt s.
Proof.
  remember (length (stdin s)) as n eqn:Hn.
  revert fuel1 fuel2 s Hn.
  induction n as [|n IH]; intros fuel1 fuel2 s Hn H1 H2;
    destruct (stdin s) as [|line rest] eqn:Hs; try discriminate.
  - destruct fuel1, fuel2; simpl; unfold bind, input; rewrite Hs; reflexivity.
  - destruct fuel1 as [|fuel1]; [lia|]. destruct fuel2 as [|fuel2]; [lia|].
    simpl. unfold bind, input. rewrite Hs.
    destruct (Py.match_ip (Py.strip line)); [reflexivity|].
    unfold_monad. cbn -[input_ip_loop].
    apply IH; simpl in *; lia.
Qed.

(** The loop ends with a well-formed address or with the end of the
    operator's input. *)
Lemma input_ip_loop_result (prompt : string) (fuel : nat) (s : State) :
  length (stdin s) <= fuel ->
  match input_ip_loop fuel prompt s with
  | (Ok v, _) => Py.match_ip v = true
  | (Raise e, s') => e = EOFError /\ stdin s' = []
  end.
Proof.
  revert s. induction fuel as [|fuel IH]; intros s Hlen;
    destruct (stdin s) as [|line rest] eqn:Hs; simpl in Hlen; try lia;
    simpl; unfold bind, input; rewrite Hs; try (split; [reflexivity | assumption]).
  destruct (Py.match_ip (Py.strip line)) eqn:Hm; [exact Hm|].
  unfold_monad. cbn -[input_ip_loop]. apply IH. simpl. lia.
Qed.

Lemma any_input_ip_loop (fuel : nat) (prompt : string) :
  respects any_frame (input_ip_loop fuel prompt).
Proof. induction fuel as [|fuel IH]; simpl; respects_auto. Qed.

Lemma any_input_ip (prompt : string) : respects any_frame (input_ip prompt).
Proof. intros s r s' E. eapply any_input_ip_loop, E. Qed.

(** The network identifier of the configuration is decided by the line
    typed at the network prompt, and by nothing else. *)
Lemma get_user_input_network (s s' : State) (config : RunConfig) :
  get_user_input W s = (Ok config, s') ->
  exists line new,
    trace s' = new ++ trace s
    /\ In (EvInput network_prompt line) new
    /\ zerotier_network config =
         (if String.length (Py.strip line) =? 16 then Some (Py.strip line)
          else None).
Proof.
  intros H. unfold get_user_input in H.
  assert (Hany : forall {A} (m : M A) s0 r s1,
             respects any_frame m -> m s0 = (r, s1) -> extends s0 s1).
  { intros A m s0 r s1 Hm E. eapply within_extends, Hm, E. }
  pose proof any_input_ip as Hip.
  repeat match type of H with
  | mbind _ (print_info "Example: a84ac5c10a1b2c3d") _ = _ => fail 1
  | mbind ?k ?m ?s0 = _ =>
      let a := fresh "a" in let s1 := fresh "s" in
      let E := fresh "E" in let X := fresh "X" in
      apply seq_ok_inv in H as (a & s1 & E & H);
      assert (X : extends s0 s1) by (eapply Hany; [|exact E]; respects_auto);
      clear E
  | bind ?m ?k ?s0 = _ =>
      let a := fresh "a" in let s1 := fresh "s" in
      let E := fresh "E" in let X := fresh "X" in
      apply bind_ok_inv in H as (a & s1 & E & H);
      assert (X : extends s0 s1) by (eapply Hany; [|exact E]; respects_auto);
      clear E
  end.
  match type of H with _ ?st = _ => rename st into sk end.
  assert (Hext : extends s sk)
    by (repeat (eapply extends_trans; [eassumption|]); apply extends_refl).
  destruct Hext as (old & Told). unfold input in H. run_in H.
  destruct (stdin sk) as [|line rest]; [discriminate|].
  cbn -[String.append String.length Nat.eqb] in H.
  destruct (String.length (Py.strip line) =? 16) eqn:Hlen;
    cbn -[String.append String.length Nat.eqb] in H.
  - destruct (truthy (Py.strip line)); cbn -[String.append] in H;
      (destruct rest as [|line2 rest2]; [discriminate|]);
      cbn -[String.append] in H;
      (destruct (is_yes (Py.lower (Py.strip line2))); cbn -[String.append] in H;
       [|discriminate]);
      injection H as <- <-; exists line;
      eexists (_ :: _ :: _ :: _ :: _ :: _ :: _ :: _ :: _ :: _ :: old);
      (split; [simpl; rewrite Told; reflexivity|]);
      (split; [simpl; tauto|]); simpl; rewrite Hlen; reflexivity.
  - destruct rest as [|line2 rest2]; [discriminate|].
    cbn -[String.append] in H.
    destruct (is_yes (Py.lower (Py.strip line2))); cbn -[String.append] in H;
      [|discriminate].
    injection H as <- <-. exists line.
    eexists (_ :: _ :: _ :: _ :: _ :: _ :: _ :: _ :: _ :: _ :: old).
    split; [simpl; rewrite Told; reflexivity|].
    split; [simpl; tauto|]. simpl. rewrite Hlen. reflexivity.
Qed.

End Inputs.

(** ** The whole run *)

Section WholeRun.

Context (W : World).

Lemma any_of_no_overlay {A : Type} (m : M A) :
  respects no_overlay_frame m -> respects any_frame m.
Proof. apply respects_weaken; simpl; tauto. Qed.

Lemma any_join_zerotier_network (network_id : option string) :
  respects any_frame (join_zerotier_network W network_id).
Proof. unfold join_zerotier_network. respects_auto. Qed.

Lemma any_configure_zerotier_managed (zt_interface : option string) :
  respects any_frame (configure_zerotier_managed W zt_interface).
Proof. unfold configure_zerotier_managed. respects_auto. Qed.

Lemma any_create_cron_job (zt_interface : option string) :
  respects any_frame (create_cron_job W zt_interface).
Proof. unfold create_cron_job. respects_auto. Qed.

Lemma any_provision (config : RunConfig) : respects any_frame (provision W config).
Proof.
  pose proof (any_of_no_overlay _ (no_overlay_install_packages W)).
  pose proof (any_of_no_overlay _ (no_overlay_configure_dhcpcd W)).
  pose proof (fun c => any_of_no_overlay _ (no_overlay_configure_network_interfaces W c)).
  pose proof (fun c => any_of_no_overlay _ (no_overlay_print_portal_instructions W c)).
  pose proof (fun c z => any_of_no_overlay _ (no_overlay_print_final_instructions c z)).
  pose proof any_join_zerotier_network.
  pose proof any_configure_zerotier_managed.
  pose proof any_create_cron_job.
  unfold provision. respects_auto.
Qed.

(** [main] up to and including the operator's answers. *)
Lemma main_unfold (s : State) :
  exists s0,
    main W s = bind (check_root W) (fun _ => bind (get_user_input W) (provision W)) s0
    /\ within no_overlay_frame s s0.
Proof.
  eexists. split.
  - unfold main. unfold_monad. cbn -[String.append check_root get_user_input provision].
    reflexivity.
  - eapply within_trans; [|eapply within_trans]; apply within_log; simpl; tauto.
Qed.


End WholeRun.

Section Summary.

Context (W : World).



End Summary.

Lemma no_identifier_typed (t : list Event) :
  forallb not_an_identifier t = true ->
  forall line, In (EvInput network_prompt line) t ->
               String.length (Py.strip line) <> 16.
Proof.
  induction t as [|e t IH]; intros H line Hin; [destruct Hin|].
  simpl in H. apply andb_true_iff in H as [He Ht].
  destruct Hin as [->|Hin]; [|eauto].
  unfold not_an_identifier in He. rewrite String.eqb_refl in He.
  cbn [negb orb] in He.
  apply negb_true_iff, Nat.eqb_neq in He. exact He.
Qed.

(** ** The backup routine and the two configuration files *)

Section Files.

Context (W : World).

Lemma backup_path_fresh (filepath timestamp : string) :
  filepath +:+ ".backup." +:+ timestamp <> filepath.
Proof. apply append_neq_self. discriminate. Qed.

(** What [backup_file] does when the file is there: whatever [cp]
    answers, the backup path is returned and success is printed; the
    file itself, the pending input and the job table are as before. *)
Lemma backup_file_spec (filepath : string) (s : State) (data : string) :
  files s !! filepath = Some data ->
  let backup_path := filepath +:+ ".backup." +:+ strftime W (now s) in
  let r := respond W (S (now s)) (Cp filepath backup_path) in
  exists s',
    backup_file W filepath s = (Ok (Some backup_path), s')
    /\ files s' !! filepath = Some data
    /\ stdin s' = stdin s
    /\ crontab s' = crontab s
    /\ exists prints,
         trace s' = EvPrint Success ("Backup created: " +:+ backup_path)
                    :: prints
                    ++ EvRun (Cp filepath backup_path) r
                    :: EvPrint Info ("Backing up " +:+ filepath) :: trace s
         /\ Forall is_print prints.
Proof.
  intros Hdata backup_path r. subst backup_path r. unfold backup_file. run.
  rewrite Hdata.
  assert (truthy ("Backing up " +:+ filepath) = true) as -> by reflexivity.
  cbn -[String.append lookup insert Z.eqb]. rewrite Hdata.
  destruct (returncode _ =? 0)%Z; cbn -[String.append lookup insert].
  - eexists. split; [reflexivity|]. cbn -[String.append lookup insert].
    rewrite lookup_insert_ne by apply backup_path_fresh.
    repeat split; try assumption.
    exists []. split; [reflexivity | constructor].
  - destruct (truthy (stderr _)); run;
      (eexists; split; [reflexivity|]; cbn -[String.append lookup insert];
       repeat split; try assumption).
    + eexists [_; _]. split; [reflexivity | repeat constructor].
    + eexists [_]. split; [reflexivity | repeat constructor].
Qed.

Lemma backup_file_absent (filepath : string) (s : State) :
  files s !! filepath = None -> backup_file W filepath s = (Ok None, s).
Proof. intros H. unfold backup_file. run. rewrite H. reflexivity. Qed.

Lemma writes_app (a b : list Event) : writes (a ++ b) = writes a ++ writes b.
Proof.
  induction a as [|e a IH]; [reflexivity|].
  destruct e; simpl; rewrite ?IH; reflexivity.
Qed.

Lemma writes_prints (prints : list Event) :
  Forall is_print prints -> writes prints = [].
Proof.
  induction 1 as [|e l He _ IH]; [reflexivity|].
  destruct e; simpl in *; tauto.
Qed.

(** After a backup, whether one was taken or not: nothing was written
    by the script and the file is as before. *)
Lemma backup_file_any (filepath : string) (s : State) :
  exists backup s',
    backup_file W filepath s = (Ok backup, s')
    /\ files s' !! filepath = files s !! filepath
    /\ stdin s' = stdin s
    /\ crontab s' = crontab s
    /\ exists new, trace s' = new ++ trace s /\ writes new = [].
Proof.
  destruct (files s !! filepath) as [data|] eqn:Hdata.
  - destruct (backup_file_spec filepath s data Hdata)
      as (s' & E & Hf & Hi & Hc & prints & T & Hp).
    eexists _, s'. split; [exact E|]. repeat split; try assumption.
    eexists (_ :: prints ++ [_; _]). split.
    + rewrite T. simpl. rewrite <- app_assoc. reflexivity.
    + simpl. rewrite writes_app, (writes_prints prints Hp). reflexivity.
  - rewrite (backup_file_absent filepath s Hdata).
    eexists _, s. repeat split; try assumption.
    exists []. split; reflexivity.
Qed.

(** The network-interfaces file: one whole-file write of the generated
    body when the file can be opened, nothing otherwise. *)
Lemma configure_network_interfaces_spec (config : RunConfig) (s : State) :
  exists opened s' new,
    configure_network_interfaces W config s = (Ok opened, s')
    /\ trace s' = new ++ trace s
    /\ files s' !! interfaces_file =
         (if opened then Some (interfaces_config config)
          else files s !! interfaces_file)
    /\ writes new =
         (if opened then [(interfaces_file, ModeW, interfaces_config config)]
          else [])
    /\ ((forall n, can_open W n interfaces_file = true) -> opened = true).
Proof.
  set (s0 := log (EvPrint Header "Configuring Network Interfaces") s).
  destruct (backup_file_any interfaces_file s0)
    as (backup & s1 & E & Hf & _ & _ & new & T & Hw).
  exists (can_open W (now s1) interfaces_file).
  exists (snd (configure_network_interfaces W config s)).
  exists ((if can_open W (now s1) interfaces_file
           then [ EvPrint Success (interfaces_file +:+ " configured successfully");
                  EvWrite interfaces_file ModeW (interfaces_config config) ]
           else [ EvPrint Error ("Failed to write " +:+ interfaces_file +:+ ": "
                                 +:+ str_exn (OSError interfaces_file)) ])
          ++ new ++ [EvPrint Header "Configuring Network Interfaces"]).
  unfold configure_network_interfaces. unfold_monad. fold s0.
  cbn -[String.append lookup insert backup_file write_file].
  fold s0. rewrite E. unfold write_file, now.
  destruct (can_open W _ interfaces_file) eqn:Hopen;
    cbn -[String.append lookup insert].
  - rewrite lookup_insert_eq, T, writes_app, Hw. repeat split.
    rewrite <- app_assoc. reflexivity.
  - rewrite Hf, T, writes_app, Hw. repeat split.
    + rewrite <- app_assoc. reflexivity.
    + intros Hall. rewrite (Hall (length (trace s1))) in Hopen. discriminate.
Qed.

(** The exclusion file once it exists: backed up, read, and left alone
    or extended by the block of directives. *)
Lemma configure_dhcpcd_existing_spec (s : State) (content : string) :
  files s !! dhcpcd_conf = Some content ->
  (forall n, can_open W n dhcpcd_conf = true) ->
  exists s' new,
    configure_dhcpcd_existing W s = (Ok true, s')
    /\ trace s' = new ++ trace s
    /\ files s' !! dhcpcd_conf =
         Some (if dhcpcd_configured content then content
               else content +:+ dhcpcd_block)
    /\ writes new =
         (if dhcpcd_configured content then []
          else [(dhcpcd_conf, ModeA, dhcpcd_block)])
    /\ stdin s' = stdin s /\ crontab s' = crontab s.
Proof.
  intros Hfile Hopen.
  destruct (backup_file_any dhcpcd_conf s)
    as (backup & s1 & E & Hf & Hi & Hc & new & T & Hw).
  rewrite Hfile in Hf.
  exists (snd (configure_dhcpcd_existing W s)).
  exists ((if dhcpcd_configured content
           then [ EvPrint Success "dhcpcd is already configured correctly" ]
           else [ EvPrint Success "dhcpcd configured successfully";
                  EvWrite dhcpcd_conf ModeA dhcpcd_block;
                  EvPrint Info "Adding denyinterfaces to dhcpcd.conf..." ])
          ++ new).
  unfold configure_dhcpcd_existing. unfold_monad.
  cbn -[String.append lookup insert backup_file write_file read_file
        dhcpcd_configured dhcpcd_block].
  rewrite E. unfold read_file, write_file, now. rewrite Hopen, Hf.
  destruct (dhcpcd_configured content);
    cbn -[String.append lookup insert dhcpcd_block].
  - rewrite T, Hf, ?writes_app, Hw. repeat split; assumption.
  - rewrite Hopen. cbn -[String.append lookup insert dhcpcd_block].
    rewrite lookup_insert_eq, Hf, T, ?writes_app, Hw. repeat split; assumption.
Qed.

Lemma configure_dhcpcd_present (s : State) (content : string) :
  files s !! dhcpcd_conf = Some content ->
  configure_dhcpcd W s
  = configure_dhcpcd_existing W (log (EvPrint Header "Configuring dhcpcd") s).
Proof.
  intros H. unfold configure_dhcpcd. unfold_monad.
  cbn -[String.append lookup insert configure_dhcpcd_existing].
  rewrite H. reflexivity.
Qed.


End Files.

(** ** The boot action *)

Section BootAction.

Context (W : World).








Lemma split_on_aux_head_clean (sep : ascii) (s cur first : string) :
  Py.has_char sep cur = false ->
  head (Py.split_on_aux sep s cur) = Some first ->
  Py.has_char sep first = false.
Proof.
  revert cur. induction s as [|a s IH]; intros cur Hcur; simpl.
  - intros [= <-]. exact Hcur.
  - destruct (Ascii.eqb a sep) eqn:Ha; simpl.
    + intros [= <-]. exact Hcur.
    + apply IH. rewrite has_char_append, Hcur. simpl.
      rewrite Ascii.eqb_sym, Ha. reflexivity.
Qed.

(** The interface the joiner hands to the scheduler is the first line
    of a listing: it is not empty and holds no line feed. *)
Lemma join_zerotier_network_one_line (network_id : option string)
    (s s' : State) (zt_interface : string) :
  join_zerotier_network W network_id s = (Ok (Some zt_interface), s') ->
  Py.has_char newline zt_interface = false.
Proof.
  unfold join_zerotier_network. unfold_monad.
  cbn -[String.append Z.eqb Py.split_on Py.strip].
  destruct (truthy_opt network_id); cbn -[String.append Z.eqb Py.split_on Py.strip];
    [|discriminate].
  destruct (returncode _ =? 0)%Z; cbn -[String.append Z.eqb Py.split_on Py.strip];
    [|discriminate].
  destruct (returncode _ =? 0)%Z; cbn -[String.append Z.eqb Py.split_on Py.strip];
    [|discriminate].
  destruct (truthy _); cbn -[String.append Z.eqb Py.split_on Py.strip];
    [|discriminate].
  destruct (head _) as [first|] eqn:Hhead; cbn -[String.append]; [|discriminate].
  intros [= <- _]. eapply split_on_aux_head_clean; [|exact Hhead]. reflexivity.
Qed.

End BootAction.

(** ** The properties of the specification *)

(** *** Interface configuration writer *)

(** C9.  For the configuration of the specification's example (eth0,
    192.168.1.2, 255.255.255.0, 192.168.1.1, "8.8.8.8 8.8.4.4") the
    generated body is, line by line, the one below: eth0 in manual mode,
    br0 static with exactly that address, netmask, gateway and DNS line,
    [bridge_ports eth0], [bridge_stp off], [bridge_fd 0].  For every
    configuration, [configure_network_interfaces] writes the file with one
    write in mode ['w'] whose data is the whole generated body, after
    which the file holds exactly that body; when the file cannot be
    opened nothing is written and the file is as before. *)
Theorem interfaces_file_whole_body (W : World) (config : RunConfig) (s : State) :
  Py.split_on newline (interfaces_config Demo.example_config)
  = [ "# /etc/network/interfaces";
      "# Configured by zerotier_bridge_setup.py";
      EmptyString;
      "# Loopback interface";
      "auto lo";
      "iface lo inet loopback";
      EmptyString;
      "# Physical interface - no IP configuration (manual mode)";
      "auto eth0";
      "iface eth0 inet manual";
      EmptyString;
      "# Bridge interface";
      "auto br0";
      "iface br0 inet static";
      "    address 192.168.1.2";
      "    netmask 255.255.255.0";
      "    gateway 192.168.1.1";
      "    dns-nameservers 8.8.8.8 8.8.4.4";
      "    bridge_ports eth0";
      "    bridge_stp off";
      "    bridge_fd 0";
      "    bridge_maxwait 0";
      EmptyString ]%string
  /\ exists opened s' new,
       configure_network_interfaces W config s = (Ok opened, s')
       /\ trace s' = new ++ trace s
       /\ files s' !! interfaces_file =
            (if opened then Some (interfaces_config config)
             else files s !! interfaces_file)
       /\ writes new =
            (if opened then [(interfaces_file, ModeW, interfaces_config config)]
             else [])
       /\ ((forall n, can_open W n interfaces_file = true) -> opened = true).
Proof.
  split; [vm_compute; reflexivity|].
  apply configure_network_interfaces_spec.
Qed.

(** On [Demo.plain_host] the file is opened and afterwards holds the
    generated body, 450 characters. *)
Lemma interfaces_file_whole_body_witness :
  exists s' new,
    configure_network_interfaces Demo.plain_host Demo.example_config
      Demo.with_interfaces = (Ok true, s')
    /\ files s' !! interfaces_file = Some (interfaces_config Demo.example_config)
    /\ writes new
       = [(interfaces_file, ModeW, interfaces_config Demo.example_config)]
    /\ String.length (interfaces_config Demo.example_config) = 450.
Proof.
  destruct (interfaces_file_whole_body Demo.plain_host Demo.example_config
              Demo.with_interfaces)
    as (_ & opened & s' & new & E & _ & Hf & Hw & Hall).
  rewrite (Hall (fun n => eq_refl)) in *.
  exists s', new. repeat split; assumption.
Defined.

(** C10.  When the file to be changed exists, [backup_file] returns the
    path with the time-stamp suffix and prints its success message
    whatever the copy command answered, also a non-zero exit status: the
    command executor returns from every state (it hands a
    [CalledProcessError] back as the result).  The file is as before, and
    the network-interfaces file is written right after the backup
    whenever it can be opened. *)
Theorem backup_reports_success_whatever_cp_does (W : World) (filepath : string)
    (s : State) :
  is_Some (files s !! filepath) ->
  let backup_path := filepath +:+ ".backup." +:+ strftime W (now s) in
  let cp := Cp filepath backup_path in
  (forall description check capture_output,
      returns (run_command W cp description check capture_output))
  /\ exists s',
       backup_file W filepath s = (Ok (Some backup_path), s')
       /\ In (EvRun cp (respond W (S (now s)) cp)) (trace s')
       /\ In (EvPrint Success ("Backup created: " +:+ backup_path)) (trace s')
       /\ files s' !! filepath = files s !! filepath
  /\ forall config,
       (forall n, can_open W n interfaces_file = true) ->
       exists s'',
         configure_network_interfaces W config s = (Ok true, s'')
         /\ files s'' !! interfaces_file = Some (interfaces_config config).
Proof.
  intros [data Hdata] backup_path cp. split.
  { intros. apply returns_run_command. }
  destruct (backup_file_spec W filepath s data Hdata)
    as (s' & E & Hf & _ & _ & prints & T & _).
  exists s'. split; [exact E|]. rewrite T, Hf, Hdata.
  split; [right; apply in_or_app; right; left; reflexivity|].
  split; [left; reflexivity|]. split; [reflexivity|].
  intros config Hopen.
  destruct (configure_network_interfaces_spec W config s)
    as (opened & s'' & new & E' & _ & Hfile & _ & Hall).
  rewrite (Hall Hopen) in *. eauto.
Qed.

(** The copy fails on [Demo.failing_host]; the backup is reported all the
    same and the file is rewritten. *)
Lemma backup_reports_success_witness :
  returncode (respond Demo.failing_host 1
                (Cp interfaces_file "/etc/network/interfaces.backup.20251101_120000"))
  = 1%Z
  /\ exists s',
       backup_file Demo.failing_host interfaces_file Demo.with_interfaces
       = (Ok (Some "/etc/network/interfaces.backup.20251101_120000"%string), s')
       /\ files s' !! interfaces_file = Some "auto lo"%string.
Proof.
  split; [reflexivity|].
  destruct (backup_reports_success_whatever_cp_does Demo.failing_host
              interfaces_file Demo.with_interfaces)
    as (_ & s' & E & _ & _ & Hf & _).
  - exists "auto lo"%string. vm_compute. reflexivity.
  - exists s'. split; [exact E|]. rewrite Hf. vm_compute. reflexivity.
Defined.

(** C1 (as amended).  For every content of the exclusion file, when the
    file can be opened: if both tests of the writer succeed (the content
    contains [denyinterfaces eth0] and [denyinterfaces zt]) the writer
    writes nothing and the content is unchanged; otherwise it appends the
    block with the two directives once, so that each directive occurs
    once more than before (exactly once when it did not occur before).
    After one run both tests succeed, and a second run in succession
    writes nothing and changes nothing. *)
Theorem dhcpcd_writer_idempotent (W : World) (s : State) (content : string) :
  files s !! dhcpcd_conf = Some content ->
  (forall n, can_open W n dhcpcd_conf = true) ->
  let appended := negb (dhcpcd_configured content) in
  let content' := if appended then content +:+ dhcpcd_block else content in
  exists s1 s2,
    configure_dhcpcd W s = (Ok true, s1)
    /\ files s1 !! dhcpcd_conf = Some content'
    /\ writes (trace s1)
       = (if appended then [(dhcpcd_conf, ModeA, dhcpcd_block)] else [])
         ++ writes (trace s)
    /\ dhcpcd_configured content' = true
    /\ Py.occurrences "denyinterfaces eth0" content'
       = Py.occurrences "denyinterfaces eth0" content + (if appended then 1 else 0)
    /\ Py.occurrences "denyinterfaces zt*" content'
       = Py.occurrences "denyinterfaces zt*" content + (if appended then 1 else 0)
    /\ configure_dhcpcd W s1 = (Ok true, s2)
    /\ files s2 !! dhcpcd_conf = Some content'
    /\ writes (trace s2) = writes (trace s1).
Proof.
  intros Hfile Hopen appended content'.
  assert (Hconf : dhcpcd_configured content' = true).
  { subst content' appended. destruct (dhcpcd_configured content) eqn:Hc; simpl.
    - exact Hc.
    - unfold dhcpcd_configured.
      rewrite !contains_app_r by reflexivity. reflexivity. }
  assert (Hblock : exists t, dhcpcd_block = String newline t)
    by (eexists; reflexivity).
  assert (Hocc : forall pat, pat <> EmptyString -> Py.has_char newline pat = false ->
            Py.occurrences pat dhcpcd_block = 1 ->
            Py.occurrences pat content'
            = Py.occurrences pat content + (if appended then 1 else 0)).
  { intros pat Hne Hnl Hone. subst content'. destruct appended; [|lia].
    destruct Hblock as (t & Ht). rewrite Ht in *.
    rewrite (occurrences_app_sep newline) by assumption. rewrite Hone. reflexivity. }
  destruct (configure_dhcpcd_existing_spec W
              (log (EvPrint Header "Configuring dhcpcd") s) content Hfile Hopen)
    as (s1 & new1 & E1 & T1 & F1 & W1 & _).
  rewrite <- (configure_dhcpcd_present W s content Hfile) in E1.
  assert (F1' : files s1 !! dhcpcd_conf = Some content').
  { rewrite F1. subst content' appended.
    destruct (dhcpcd_configured content); reflexivity. }
  destruct (configure_dhcpcd_existing_spec W
              (log (EvPrint Header "Configuring dhcpcd") s1) content' F1' Hopen)
    as (s2 & new2 & E2 & T2 & F2 & W2 & _).
  rewrite <- (configure_dhcpcd_present W s1 content' F1') in E2.
  rewrite Hconf in F2, W2.
  exists s1, s2. split; [exact E1|]. split; [exact F1'|]. split.
  { rewrite T1, writes_app, W1. subst appended.
    destruct (dhcpcd_configured content); reflexivity. }
  split; [exact Hconf|].
  split; [apply Hocc; [discriminate | reflexivity | reflexivity]|].
  split; [apply Hocc; [discriminate | reflexivity | reflexivity]|].
  split; [exact E2|]. split; [exact F2|].
  rewrite T2, writes_app, W2. reflexivity.
Qed.

Lemma dhcpcd_writer_idempotent_witness :
  exists s1 s2,
    configure_dhcpcd Demo.plain_host Demo.unconfigured = (Ok true, s1)
    /\ files s1 !! dhcpcd_conf = Some (("hostname" +:+ nl) +:+ dhcpcd_block)
    /\ configure_dhcpcd Demo.plain_host s1 = (Ok true, s2)
    /\ files s2 !! dhcpcd_conf = Some (("hostname" +:+ nl) +:+ dhcpcd_block).
Proof.
  destruct (dhcpcd_writer_idempotent Demo.plain_host Demo.unconfigured
              ("hostname" +:+ nl))
    as (s1 & s2 & E1 & F1 & _ & _ & _ & _ & E2 & F2 & _).
  - vm_compute. reflexivity.
  - intros n. reflexivity.
  - exists s1, s2. repeat split; assumption.
Defined.

(** C1, as stated, fails: the file that already denies [eth0] but not
    [zt*] is missing a directive, and after one run it holds
    [denyinterfaces eth0] twice, not once. *)
Lemma dhcpcd_writer_repeats_present_directive :
  dhcpcd_configured ("denyinterfaces eth0" +:+ nl) = false
  /\ fst (configure_dhcpcd Demo.plain_host Demo.half_configured) = Ok true
  /\ option_map (Py.occurrences "denyinterfaces eth0")
       (files (snd (configure_dhcpcd Demo.plain_host Demo.half_configured))
          !! dhcpcd_conf)
     = Some 2.
Proof. vm_compute. repeat split. Qed.

(** C2.  The writer names [eth0] whatever the operator chose: with the
    operator bridging [eth1] the run completes, the exclusion file gets
    the block with [denyinterfaces eth0], no directive names [eth1], and
    the network-interfaces file of the same run bridges [eth1]. *)
Lemma dhcpcd_directives_ignore_interface :
  fst (main Demo.plain_host Demo.bridging_eth1) = Ok tt
  /\ files (snd (main Demo.plain_host Demo.bridging_eth1)) !! dhcpcd_conf
     = Some (("hostname" +:+ nl) +:+ dhcpcd_block)
  /\ Py.contains "denyinterfaces eth0" dhcpcd_block = true
  /\ Py.contains "eth1" dhcpcd_block = false
  /\ option_map (Py.contains "    bridge_ports eth1")
       (files (snd (main Demo.plain_host Demo.bridging_eth1)) !! interfaces_file)
     = Some true.
Proof. vm_compute. repeat split. Qed.




(** *** Operator input *)

(** C6 (as amended).  Whatever the operator types at the network prompt,
    the identifier stored in the configuration is either absent or the
    typed line without its surrounding white space, and then it has
    exactly 16 characters.  (Nothing checks that they are hexadecimal.) *)
Theorem network_identifier_has_16_characters (W : World) (s s' : State)
    (config : RunConfig) :
  get_user_input W s = (Ok config, s') ->
  zerotier_network config = None
  \/ exists line,
       In (EvInput network_prompt line) (trace s')
       /\ zerotier_network config = Some (Py.strip line)
       /\ String.length (Py.strip line) = 16.
Proof.
  intros H.
  destruct (get_user_input_network W s s' config H) as (line & new & T & Hin & Hz).
  destruct (String.length (Py.strip line) =? 16) eqn:Hlen; [right | left; exact Hz].
  exists line. split; [rewrite T; apply in_or_app; left; exact Hin|].
  split; [exact Hz | apply Nat.eqb_eq, Hlen].
Qed.

(** The operator pastes the identifier with blanks around it; the
    stripped line is stored. *)
Lemma network_identifier_witness :
  exists line,
    In (EvInput network_prompt line)
       (trace (snd (get_user_input Demo.plain_host Demo.pasting_blanks)))
    /\ Py.strip line = "a84ac5c10a1b2c3d"%string
    /\ String.length (Py.strip line) = 16.
Proof.
  destruct (network_identifier_has_16_characters Demo.plain_host
              Demo.pasting_blanks
              (snd (get_user_input Demo.plain_host Demo.pasting_blanks))
              {| physical_interface := "eth0"; bridge_ip := "192.168.1.2";
                 netmask := "255.255.255.0"; gateway := "192.168.1.1";
                 dns := "8.8.8.8 8.8.4.4";
                 zerotier_network := Some "a84ac5c10a1b2c3d"%string |})
    as [Hnone | (line & Hin & Hz & Hlen)].
  - vm_compute. reflexivity.
  - discriminate Hnone.
  - exists line. split; [exact Hin|]. split; [|exact Hlen].
    simpl in Hz. injection Hz as Hz. symmetry. exact Hz.
Defined.

(** C6, as stated, fails: sixteen letters z are stored as the network
    identifier, and the join command is run with them. *)
Lemma network_identifier_need_not_be_hex :
  option_map zerotier_network
    (match fst (get_user_input Demo.plain_host Demo.typing_z) with
     | Ok config => Some config
     | Raise _ => None
     end)
  = Some (Some "zzzzzzzzzzzzzzzz"%string)
  /\ is_hex "zzzzzzzzzzzzzzzz" = false
  /\ ran (fun c => match c with
                   | ZeroTierJoin id => String.eqb id "zzzzzzzzzzzzzzzz"
                   | _ => false
                   end)
       (trace (snd (main Demo.plain_host Demo.typing_z))) = true.
Proof. vm_compute. repeat split. Qed.

(** C7 (as amended).  The length that counts is the one of the typed
    line without its surrounding white space.  In every run of [main] in
    which every line typed at the network prompt has, once stripped, a
    length other than 16 (the empty line included), none of the events of
    the join stage, of the managed-routes stage or of the boot-action
    stage occurs, and the job table is as before: the stages are skipped.
    And the identifier stored by [get_user_input] is absent whenever the
    stripped line typed at the network prompt has a length other than 16. *)
Theorem short_identifier_skips_overlay_stages (W : World) (s : State)
    (r : Res unit) (s' : State) :
  main W s = (r, s') ->
  (forall s0 s1 config,
      get_user_input W s0 = (Ok config, s1) ->
      exists line new,
        trace s1 = new ++ trace s0
        /\ In (EvInput network_prompt line) new
        /\ (String.length (Py.strip line) <> 16 -> zerotier_network config = None))
  /\ exists new,
       trace s' = new ++ trace s
       /\ ((forall line, In (EvInput network_prompt line) new ->
                         String.length (Py.strip line) <> 16) ->
           Forall (fun e => ~ overlay_event e) new /\ crontab s' = crontab s).
Proof.
  intros Hmain. split.
  { intros s0 s1 config H.
    destruct (get_user_input_network W s0 s1 config H) as (line & new & T & Hin & Hz).
    exists line, new. repeat split; try assumption.
    intros Hne. rewrite Hz. apply Nat.eqb_neq in Hne. rewrite Hne. reflexivity. }
  destruct (main_unfold W s) as (s0 & Emain & W0). rewrite Emain in Hmain.
  assert (Hclose : within no_overlay_frame s s' ->
            exists new, trace s' = new ++ trace s
              /\ ((forall line, In (EvInput network_prompt line) new ->
                                String.length (Py.strip line) <> 16) ->
                  Forall (fun e => ~ overlay_event e) new /\ crontab s' = crontab s)).
  { intros (_ & _ & Hc & new & T & Hall). exists new. split; [exact T|].
    intros _. split; [exact Hall | apply Hc; exact I]. }
  unfold bind in Hmain.
  destruct (check_root W s0) as [[[]|e] s2] eqn:Eroot.
  2:{ injection Hmain as <- <-. apply Hclose.
      eapply within_trans; [exact W0 | eapply no_overlay_check_root, Eroot]. }
  assert (W2 : within no_overlay_frame s s2)
    by (eapply within_trans; [exact W0 | eapply no_overlay_check_root, Eroot]).
  destruct (get_user_input W s2) as [[config|e] s3] eqn:Einput.
  2:{ injection Hmain as <- <-. apply Hclose.
      eapply within_trans; [exact W2 | eapply no_overlay_get_user_input, Einput]. }
  assert (W3 : within no_overlay_frame s s3)
    by (eapply within_trans; [exact W2 | eapply no_overlay_get_user_input, Einput]).
  destruct (get_user_input_network W s2 s3 config Einput)
    as (line & new3 & T3 & Hin & Hz).
  destruct (within_extends _ _ _ W2) as (new2 & T2).
  destruct (within_extends _ _ _ (any_provision W config s3 r s' Hmain))
    as (new4 & T4).
  exists (new4 ++ new3 ++ new2). split.
  { rewrite T4, T3, T2, <- !app_assoc. reflexivity. }
  intros Hlines.
  assert (Hnone : zerotier_network config = None).
  { rewrite Hz.
    assert (Hne : String.length (Py.strip line) <> 16).
    { apply Hlines. apply in_or_app. right. apply in_or_app. left. exact Hin. }
    apply Nat.eqb_neq in Hne. rewrite Hne. reflexivity. }
  assert (Wall : within no_overlay_frame s s')
    by (eapply within_trans; [exact W3 | eapply no_overlay_provision; eassumption]).
  destruct Wall as (_ & _ & Hc & new & T & Hall).
  assert (new = new4 ++ new3 ++ new2) as <-.
  { apply (app_inv_tail (trace s)). rewrite <- T, T4, T3, T2, <- !app_assoc.
    reflexivity. }
  split; [exact Hall | apply Hc; exact I].
Qed.

Lemma short_identifier_witness :
  fst (main Demo.plain_host Demo.typing_short) = Ok tt
  /\ exists new,
       trace (snd (main Demo.plain_host Demo.typing_short)) = new ++ []
       /\ Forall (fun e => ~ overlay_event e) new
       /\ crontab (snd (main Demo.plain_host Demo.typing_short)) = None.
Proof.
  split; [vm_compute; reflexivity|].
  destruct (short_identifier_skips_overlay_stages Demo.plain_host Demo.typing_short
              (fst (main Demo.plain_host Demo.typing_short))
              (snd (main Demo.plain_host Demo.typing_short)))
    as (_ & new & T & Hskip).
  - destruct (main Demo.plain_host Demo.typing_short). reflexivity.
  - exists new. split; [exact T|].
    assert (Hnew : new = trace (snd (main Demo.plain_host Demo.typing_short))).
    { rewrite T. symmetry. apply app_nil_r. }
    apply Hskip, no_identifier_typed. rewrite Hnew. vm_compute. reflexivity.
Defined.

(** C7, as stated, fails: the line typed is 18 characters long (the
    identifier with a blank on either side), yet the identifier is
    stored and the network is joined. *)
Lemma padded_identifier_is_joined :
  String.length " a84ac5c10a1b2c3d " = 18
  /\ asked network_prompt (trace (snd (main Demo.plain_host Demo.pasting_blanks)))
     = true
  /\ In (EvInput network_prompt " a84ac5c10a1b2c3d ")
        (trace (snd (main Demo.plain_host Demo.pasting_blanks)))
  /\ option_map zerotier_network
       (match fst (get_user_input Demo.plain_host Demo.pasting_blanks) with
        | Ok config => Some config
        | Raise _ => None
        end)
     = Some (Some "a84ac5c10a1b2c3d"%string)
  /\ ran (fun c => match c with
                   | ZeroTierJoin id => String.eqb id "a84ac5c10a1b2c3d"
                   | _ => false
                   end)
       (trace (snd (main Demo.plain_host Demo.pasting_blanks))) = true.
Proof.
  split; [reflexivity|]. split; [vm_compute; reflexivity|].
  split; [vm_compute; tauto|]. vm_compute. repeat split.
Qed.

(** *** Boot action scheduler *)




(** *** Package provisioner *)





(** ** Further properties of the script *)

(** *** What can be raised *)

Section Raises.

Context (W : World) (P : Exn -> Prop).

(** Every exception but [SystemExit] is let through by [P]. *)
Hypothesis exceptions_allowed : forall e, is_Exception e = true -> P e.

Lemma raises_ret {A : Type} (a : A) : raises_only P (mret a : M A).
Proof. intros s e s' H. discriminate H. Qed.

Lemma raises_raise {A : Type} (e : Exn) : P e -> raises_only P (raise e : M A).
Proof. intros He s e' s' [= <- _]. exact He. Qed.

Lemma raises_bind {A B : Type} (m : M A) (k : A -> M B) :
  raises_only P m -> (forall a, raises_only P (k a)) -> raises_only P (bind m k).
Proof.
  intros Hm Hk s e s' H. unfold bind in H.
  destruct (m s) as [[a|e0] s1] eqn:E.
  - eapply Hk, H.
  - injection H as <- <-. eapply Hm, E.
Qed.

Lemma raises_seq {A B : Type} (m : M A) (k : A -> M B) :
  raises_only P m -> (forall a, raises_only P (k a)) -> raises_only P (mbind k m).
Proof. apply raises_bind. Qed.

Lemma raises_when (b : bool) (m : M unit) :
  raises_only P m -> raises_only P (when b m).
Proof. intros Hm. destruct b; [exact Hm | apply raises_ret]. Qed.

Lemma raises_try_except {A : Type} (m : M A) (h : Exn -> M A) :
  raises_only P m -> (forall e, raises_only P (h e)) ->
  raises_only P (try_except m h).
Proof.
  intros Hm Hh s e s' H. unfold try_except in H.
  destruct (m s) as [[a|e0] s1] eqn:E; [discriminate|].
  destruct (is_Exception e0).
  - eapply Hh, H.
  - injection H as <- <-. eapply Hm, E.
Qed.

Lemma raises_of_returns {A : Type} (m : M A) : returns m -> raises_only P m.
Proof.
  intros Hr s e s' H. destruct (Hr s) as (a & s1 & E). congruence.
Qed.

Lemma raises_emit (e : Event) : raises_only P (emit e).
Proof. apply raises_of_returns, returns_emit. Qed.

Lemma raises_run_command (c : Command) (description : string)
    (check capture_output : bool) :
  raises_only P (run_command W c description check capture_output).
Proof. apply raises_of_returns, returns_run_command. Qed.

Lemma raises_input (prompt : string) : raises_only P (input prompt).
Proof.
  intros s e s' H. unfold input in H.
  destruct (stdin s); [|discriminate]. injection H as <- _.
  apply exceptions_allowed. reflexivity.
Qed.

Lemma raises_write_file (path : string) (mode : Mode) (data : string) :
  raises_only P (write_file W path mode data).
Proof.
  intros s e s' H. unfold write_file in H.
  destruct (can_open W (now s) path); [discriminate|]. injection H as <- _.
  apply exceptions_allowed. reflexivity.
Qed.

Lemma raises_read_file (path : string) : raises_only P (read_file W path).
Proof.
  intros s e s' H. unfold read_file in H.
  destruct (can_open W (now s) path); [destruct (files s !! path)|];
    try discriminate; injection H as <- _; apply exceptions_allowed; reflexivity.
Qed.

Lemma raises_os_path_getsize (path : string) :
  raises_only P (os_path_getsize path).
Proof.
  intros s e s' H. unfold os_path_getsize in H.
  destruct (files s !! path); [discriminate|]. injection H as <- _.
  apply exceptions_allowed. reflexivity.
Qed.

End Raises.

Ltac raises_step :=
  lazymatch goal with
  | |- raises_only _ (bind _ _) => apply raises_bind; [| intros ?]
  | |- raises_only _ (mbind _ _) => apply raises_seq; [| intros ?]
  | |- raises_only _ (mret _) => apply raises_ret
  | |- raises_only _ (raise ?e) =>
      apply raises_raise; simpl; solve [auto]
  | |- raises_only _ (sys_exit _) => unfold sys_exit
  | |- raises_only _ (when _ _) => apply raises_when
  | |- raises_only _ (try_except _ _) =>
      apply raises_try_except; [| intros ?]
  | |- raises_only _ (print_header _) => apply raises_emit
  | |- raises_only _ (print_success _) => apply raises_emit
  | |- raises_only _ (print_error _) => apply raises_emit
  | |- raises_only _ (print_warning _) => apply raises_emit
  | |- raises_only _ (print_info _) => apply raises_emit
  | |- raises_only _ (print _) => apply raises_emit
  | |- raises_only _ (time_sleep _) => apply raises_emit
  | |- raises_only _ (os_path_exists _) =>
      apply raises_of_returns, returns_os_path_exists
  | |- raises_only _ (os_makedirs _) => apply raises_ret
  | |- raises_only _ (time_strftime _) =>
      apply raises_of_returns; intros ?; eexists _, _; reflexivity
  | |- raises_only _ (run_command _ _ _ _ _) => apply raises_run_command
  | |- raises_only _ (write_file _ _ _ _) => apply raises_write_file; assumption
  | |- raises_only _ (read_file _ _) => apply raises_read_file; assumption
  | |- raises_only _ (input _) => apply raises_input; assumption
  | |- raises_only _ (if ?b then _ else _) => destruct b
  | |- raises_only _ (match ?o with _ => _ end) => destruct o
  end.

Ltac raises_auto := repeat first [ solve [eauto 2] | raises_step ].

Section ExitStatus.

Context (W : World) (P : Exn -> Prop).

Hypothesis exceptions_allowed : forall e, is_Exception e = true -> P e.
Hypothesis exit_1_allowed : P (SystemExit 1).

Lemma raises_check_root : raises_only P (check_root W).
Proof. unfold check_root. raises_auto. Qed.

Lemma raises_install_packages : raises_only P (install_packages W).
Proof.
  pose proof (raises_of_returns P _ (returns_install_required W)).
  unfold install_packages, install_zerotier, check_critical. raises_auto.
Qed.

Lemma raises_backup_file (filepath : string) :
  raises_only P (backup_file W filepath).
Proof. unfold backup_file. raises_auto. Qed.

Lemma raises_configure_dhcpcd : raises_only P (configure_dhcpcd W).
Proof.
  pose proof raises_backup_file.
  unfold configure_dhcpcd, configure_dhcpcd_existing, handle_network_manager,
    detect_network_manager.
  raises_auto.
Qed.

Lemma raises_configure_network_interfaces (config : RunConfig) :
  raises_only P (configure_network_interfaces W config).
Proof.
  pose proof raises_backup_file.
  unfold configure_network_interfaces. raises_auto.
Qed.

Lemma raises_join_zerotier_network (network_id : option string) :
  raises_only P (join_zerotier_network W network_id).
Proof. unfold join_zerotier_network. raises_auto. Qed.

Lemma raises_configure_zerotier_managed (zt_interface : option string) :
  raises_only P (configure_zerotier_managed W zt_interface).
Proof. unfold configure_zerotier_managed. raises_auto. Qed.

Lemma raises_create_cron_job (zt_interface : option string) :
  raises_only P (create_cron_job W zt_interface).
Proof. unfold create_cron_job. raises_auto. Qed.

Lemma raises_provision (config : RunConfig) : raises_only P (provision W config).
Proof.
  pose proof raises_install_packages.
  pose proof raises_configure_dhcpcd.
  pose proof raises_configure_network_interfaces.
  pose proof raises_join_zerotier_network.
  pose proof raises_configure_zerotier_managed.
  pose proof raises_create_cron_job.
  unfold provision, print_portal_instructions, print_final_instructions,
    get_zerotier_info.
  raises_auto.
Qed.

Lemma raises_input_ip_loop (fuel : nat) (prompt : string) :
  raises_only P (input_ip_loop fuel prompt).
Proof. induction fuel as [|fuel IH]; simpl; raises_auto. Qed.

Lemma raises_input_ip (prompt : string) : raises_only P (input_ip prompt).
Proof. intros s e s' H. eapply raises_input_ip_loop, H. Qed.

Hypothesis exit_0_allowed : P (SystemExit 0).

Lemma raises_get_user_input : raises_only P (get_user_input W).
Proof.
  pose proof raises_input_ip.
  unfold get_user_input. raises_auto.
Qed.

Lemma raises_main : raises_only P (main W).
Proof.
  pose proof raises_check_root.
  pose proof raises_get_user_input.
  pose proof raises_provision.
  unfold main. raises_auto.
Qed.

End ExitStatus.

(** *** Exit statuses *)

Section Outcomes.

Context (W : World).

Lemma exceptions_exit_status_ok (e : Exn) : is_Exception e = true -> exit_status_ok e.
Proof. destruct e; simpl; intros; try exact I. discriminate. Qed.

Lemma exceptions_exits_with_1 (e : Exn) : is_Exception e = true -> exits_with_1 e.
Proof. destruct e; simpl; intros; try exact I. discriminate. Qed.

(** X1.  The script ends in one of three ways: it completes, or it
    exits with status 0, or it exits with status 1.  No other exit
    status occurs and no exception gets past the top-level handler: an
    exception of [main] (the end of the operator's input, a file that
    cannot be opened) becomes exit status 1. *)
Theorem script_exit_statuses (s : State) :
  fst (script W s) = Ok tt
  \/ fst (script W s) = Raise (SystemExit 0)
  \/ fst (script W s) = Raise (SystemExit 1).
Proof.
  pose proof (raises_main W exit_status_ok exceptions_exit_status_ok
                (or_intror eq_refl) (or_introl eq_refl)) as Hmain.
  unfold script, try_except.
  destruct (main W s) as [[[]|e] s1] eqn:E; simpl; [left; reflexivity|].
  destruct e as [status| | | |]; simpl; try (right; right; reflexivity).
  destruct (Hmain _ _ _ E) as [-> | ->]; tauto.
Qed.







(** X3.  Without administrative rights the script exits with status 1
    at once: it has printed its banner and the two lines of the
    privilege check, and has asked nothing, run nothing and changed
    nothing. *)
Theorem unprivileged_run_exits_at_once (s : State) :
  geteuid W <> 0%Z ->
  exists s',
    script W s = (Raise (SystemExit 1), s')
    /\ files s' = files s /\ crontab s' = crontab s /\ stdin s' = stdin s
    /\ exists new, trace s' = new ++ trace s /\ Forall is_print new.
Proof.
  intros Hroot. apply Z.eqb_neq in Hroot.
  unfold script, main, check_root. unfold_monad.
  cbn -[String.append get_user_input provision Z.eqb]. rewrite Hroot.
  cbn -[String.append get_user_input provision].
  eexists. split; [reflexivity|]. repeat split.
  eexists [_; _; _; _; _]. split; [reflexivity | repeat constructor].
Qed.

End Outcomes.


Lemma unprivileged_run_witness :
  exists s',
    script Demo2.unprivileged_host Demo.refusing = (Raise (SystemExit 1), s')
    /\ stdin s' = [ "no"%string ].
Proof.
  destruct (unprivileged_run_exits_at_once Demo2.unprivileged_host Demo.refusing)
    as (s' & E & _ & _ & Hi & _).
  - discriminate.
  - exists s'. split; [exact E | exact Hi].
Defined.

(** *** Command executor *)

Section Executor.

Context (W : World).



(** X5.  [get_architecture] always answers: the trimmed output of
    [dpkg --print-architecture] when that succeeds, and ["armhf"]
    whenever it does not. *)
Theorem architecture_defaults_to_armhf (s : State) :
  let r := respond W (S (now s)) DpkgPrintArchitecture in
  exists s',
    get_architecture W s
    = (Ok (if (returncode r =? 0)%Z then Py.strip (stdout r) else "armhf"), s')
    /\ files s' = files s /\ crontab s' = crontab s /\ stdin s' = stdin s.
Proof.
  intros r. unfold get_architecture. run. fold r.
  destruct (returncode r =? 0)%Z eqn:E; run; rewrite ?E; run.
  - eexists; split; [reflexivity|]. repeat split.
  - destruct (truthy (stderr r)); run; rewrite ?E;
      (eexists; split; [reflexivity|]); repeat split.
Qed.

End Executor.

(** *** Address validation *)

Section Addresses.






End Addresses.

Section Questionnaire.

Context (W : World).

Lemma input_ip_loop_outcome (prompt : string) (fuel : nat) (s : State) :
  length (stdin s) <= fuel ->
  match input_ip_loop fuel prompt s with
  | (Ok v, s') =>
      exists rejected line,
        stdin s = rejected ++ line :: stdin s'
        /\ Forall (fun l => Py.match_ip (Py.strip l) = false) rejected
        /\ v = Py.strip line /\ Py.match_ip v = true
  | (Raise e, s') =>
      e = EOFError
      /\ Forall (fun l => Py.match_ip (Py.strip l) = false) (stdin s)
      /\ stdin s' = []
  end.
Proof.
  revert s. induction fuel as [|fuel IH]; intros s Hlen;
    destruct (stdin s) as [|line rest] eqn:Hs; simpl in Hlen; try lia;
    simpl; unfold bind, input; rewrite Hs;
    try (split; [reflexivity | split; [constructor | assumption]]).
  destruct (Py.match_ip (Py.strip line)) eqn:Hm.
  - exists [], line. simpl. repeat split; [constructor | exact Hm].
  - unfold_monad. cbn -[input_ip_loop].
    match goal with |- context [input_ip_loop fuel prompt ?s2] =>
      specialize (IH s2); destruct (input_ip_loop fuel prompt s2) as [[v|e] s']
    end; simpl in IH.
    + destruct IH as (rejected & line' & Hrest & Hrej & Hv & Hok); [lia|].
      exists (line :: rejected), line'. simpl. rewrite <- Hrest.
      repeat split; [constructor|..]; assumption.
    + destruct IH as (He & Hrej & Hend); [lia|].
      repeat split; [|constructor|]; assumption.
Qed.

(** X7.  The address prompt asks again until a line is well formed:
    [input_ip] returns the first pending line that, trimmed, has the
    address format, having consumed the lines before it (each of them
    ill formed) and no line after it; when no pending line is well
    formed it consumes them all and ends with [EOFError]. *)
Theorem address_prompt_takes_first_well_formed_line (prompt : string) (s : State) :
  match input_ip prompt s with
  | (Ok v, s') =>
      exists rejected line,
        stdin s = rejected ++ line :: stdin s'
        /\ Forall (fun l => Py.match_ip (Py.strip l) = false) rejected
        /\ v = Py.strip line /\ Py.match_ip v = true
  | (Raise e, s') =>
      e = EOFError
      /\ Forall (fun l => Py.match_ip (Py.strip l) = false) (stdin s)
      /\ stdin s' = []
  end.
Proof. unfold input_ip. apply input_ip_loop_outcome. lia. Qed.

Lemma or_default_truthy (a b : string) :
  truthy b = true -> truthy (or_default a b) = true.
Proof. unfold or_default. destruct (truthy a) eqn:E; auto. Qed.

(** X8.  Every configuration the questionnaire hands on is complete:
    the bridge address and the gateway have the address format, and
    the interface, the netmask and the name servers are not empty (a
    blank answer has been replaced by its default). *)
Theorem questionnaire_settings_are_complete (s s' : State) (config : RunConfig) :
  get_user_input W s = (Ok config, s') ->
  Py.match_ip (bridge_ip config) = true
  /\ Py.match_ip (gateway config) = true
  /\ truthy (physical_interface config) = true
  /\ truthy (netmask config) = true
  /\ truthy (dns config) = true.
Proof.
  intros H. unfold get_user_input in H.
  repeat match type of H with
  | mbind _ (print "ZeroTier Network: Will join manually later") _ = _ => fail 1
  | mbind _ (if _ then _ else _) _ = _ => fail 1
  | mbind ?k ?m ?s0 = _ =>
      let a := fresh "a" in let s1 := fresh "s" in let E := fresh "E" in
      apply seq_ok_inv in H as (a & s1 & E & H); cbv beta zeta in H
  | bind ?m ?k ?s0 = _ =>
      let a := fresh "a" in let s1 := fresh "s" in let E := fresh "E" in
      apply bind_ok_inv in H as (a & s1 & E & H); cbv beta zeta in H
  end.
  apply seq_ok_inv in H as (? & ? & _ & H).
  apply bind_ok_inv in H as (? & ? & _ & H).
  destruct (negb (is_yes _)); [discriminate H|].
  injection H as <- <-. simpl.
  repeat match goal with
  | E : input_ip ?p ?s0 = (Ok ?v, _) |- _ =>
      let X := fresh "X" in
      pose proof (input_ip_loop_result p (length (stdin s0)) s0 (le_n _)) as X;
      unfold input_ip in E; rewrite E in X
  end.
  repeat split; try assumption; apply or_default_truthy; reflexivity.
Qed.

End Questionnaire.

Lemma questionnaire_settings_witness :
  exists config s',
    get_user_input Demo.plain_host Demo.bridging_eth1 = (Ok config, s')
    /\ Py.match_ip (gateway config) = true
    /\ truthy (dns config) = true.
Proof.
  exists {| physical_interface := "eth1"; bridge_ip := "192.168.1.2";
            netmask := "255.255.255.0"; gateway := "192.168.1.1";
            dns := "8.8.8.8 8.8.4.4"; zerotier_network := None |}.
  exists (snd (get_user_input Demo.plain_host Demo.bridging_eth1)).
  assert (E : get_user_input Demo.plain_host Demo.bridging_eth1
              = (Ok {| physical_interface := "eth1"; bridge_ip := "192.168.1.2";
                       netmask := "255.255.255.0"; gateway := "192.168.1.1";
                       dns := "8.8.8.8 8.8.4.4"; zerotier_network := None |},
                 snd (get_user_input Demo.plain_host Demo.bridging_eth1))).
  { vm_compute. reflexivity. }
  split; [exact E|].
  destruct (questionnaire_settings_are_complete _ _ _ _ E) as (_ & Hg & _ & _ & Hd).
  split; assumption.
Defined.

(** *** The exclusion file and the network manager *)

Lemma trace_cons_ex (P : list Event -> Prop) (e : Event) (l t : list Event) :
  (exists new, l = new ++ t /\ P (e :: new)) ->
  exists new, e :: l = new ++ t /\ P new.
Proof. intros (new & -> & H). exists (e :: new). split; [reflexivity | exact H]. Qed.

Lemma trace_nil_ex (P : list Event -> Prop) (t : list Event) :
  P [] -> exists new, t = new ++ t /\ P new.
Proof. intros H. exists []. split; [reflexivity | exact H]. Qed.

Ltac split_trace :=
  repeat (apply trace_cons_ex; cbv beta); apply trace_nil_ex.

Section Exclusion.

Context (W : World).

(** X10.  Once the operator agrees, [systemctl stop] and [systemctl
    disable] are both run, and whatever they answer, a failure
    included, "NetworkManager disabled" is reported and the handler
    returns [True]; it consumes the one answer and changes no file. *)
Theorem network_manager_reported_disabled_whatever_systemctl_answers
    (s : State) (line : string) (rest : list string) :
  returncode (respond W (now s) IsActiveNetworkManager) = 0%Z ->
  stdin s = line :: rest ->
  is_yes (Py.lower (Py.strip line)) = true ->
  exists s',
    handle_network_manager W s = (Ok true, s')
    /\ files s' = files s /\ crontab s' = crontab s /\ stdin s' = rest
    /\ exists new,
         trace s' = new ++ trace s
         /\ commands new
            = [IsActiveNetworkManager; StopNetworkManager; DisableNetworkManager]
         /\ hd_error new = Some (EvPrint Success "NetworkManager disabled")
         /\ writes new = [].
Proof.
  intros Hactive Hstdin Hyes.
  unfold handle_network_manager, detect_network_manager, input. run.
  unfold now in *. rewrite Hactive. cbn -[String.append lookup insert].
  rewrite Hstdin, Hyes. cbn -[String.append lookup insert].
  repeat match goal with
  | |- context [(returncode ?r =? 0)%Z] =>
      destruct (returncode r =? 0)%Z; cbn -[String.append lookup insert]
  | |- context [truthy (stderr ?r)] =>
      destruct (truthy (stderr r)); cbn -[String.append lookup insert]
  end;
    (eexists; split; [reflexivity|]);
    cbn -[String.append lookup insert];
    (split; [reflexivity|]); (split; [reflexivity|]); (split; [reflexivity|]);
    split_trace; repeat split.
Qed.

Lemma handle_network_manager_goes_on (s : State) :
  (forall n, returncode (respond W n IsActiveNetworkManager) <> 0%Z)
  \/ (exists line rest, stdin s = line :: rest
                        /\ is_yes (Py.lower (Py.strip line)) = true) ->
  exists b s1,
    handle_network_manager W s = (Ok b, s1)
    /\ files s1 = files s /\ crontab s1 = crontab s.
Proof.
  intros H.
  unfold handle_network_manager, detect_network_manager, input. run.
  unfold now in *.
  destruct (returncode (respond W (length (trace s)) IsActiveNetworkManager) =? 0)%Z
    eqn:Hrc; cbn -[String.append lookup insert].
  2:{ eexists _, _. repeat split. }
  destruct H as [H | (line & rest & Hstdin & Hyes)].
  { apply Z.eqb_eq in Hrc. destruct (H _ Hrc). }
  rewrite Hstdin, Hyes. cbn -[String.append lookup insert].
  repeat match goal with
  | |- context [(returncode ?r =? 0)%Z] =>
      destruct (returncode r =? 0)%Z; cbn -[String.append lookup insert]
  | |- context [truthy (stderr ?r)] =>
      destruct (truthy (stderr r)); cbn -[String.append lookup insert]
  end;
    eexists _, _; repeat split.
Qed.

(** X9.  A missing exclusion file is created: when [/etc/dhcpcd.conf]
    does not exist and can be opened, and the network manager is not
    active or the operator agrees to disable it, [configure_dhcpcd]
    returns [True] and the file holds the two header lines followed by
    the block of directives; the job table is as before. *)
Theorem missing_exclusion_file_is_created (s : State) :
  files s !! dhcpcd_conf = None ->
  (forall n, can_open W n dhcpcd_conf = true) ->
  (forall n, returncode (respond W n IsActiveNetworkManager) <> 0%Z)
  \/ (exists line rest, stdin s = line :: rest
                        /\ is_yes (Py.lower (Py.strip line)) = true) ->
  exists s',
    configure_dhcpcd W s = (Ok true, s')
    /\ files s' !! dhcpcd_conf = Some (dhcpcd_header +:+ dhcpcd_block)
    /\ crontab s' = crontab s.
Proof.
  intros Hfile Hopen Hnm.
  set (s0 := log (EvPrint Warning (dhcpcd_conf +:+ " does not exist"))
               (log (EvPrint Header "Configuring dhcpcd") s)).
  destruct (handle_network_manager_goes_on s0 Hnm) as (b & s1 & E & Hf1 & Hc1).
  set (s2 := log (EvPrint Success ("Created " +:+ dhcpcd_conf))
               (log (EvWrite dhcpcd_conf ModeW dhcpcd_header)
                  (set_file dhcpcd_conf (EmptyString +:+ dhcpcd_header)
                     (log (EvPrint Info "Creating minimal dhcpcd.conf...") s1)))).
  destruct (configure_dhcpcd_existing_spec W s2 dhcpcd_header)
    as (s' & new & E' & _ & Hf & _ & _ & Hc); [apply lookup_insert_eq | exact Hopen |].
  exists s'. split; [|split].
  - unfold configure_dhcpcd. unfold_monad.
    cbn -[String.append lookup insert handle_network_manager
          configure_dhcpcd_existing write_file dhcpcd_header].
    rewrite Hfile.
    cbn -[String.append lookup insert handle_network_manager
          configure_dhcpcd_existing write_file dhcpcd_header].
    fold s0. rewrite E. unfold write_file, now. rewrite Hopen.
    cbn -[String.append lookup insert configure_dhcpcd_existing dhcpcd_header].
    exact E'.
  - rewrite Hf. reflexivity.
  - rewrite Hc. exact Hc1.
Qed.

Lemma interfaces_file_is_not_a_backup (timestamp : string) :
  dhcpcd_conf +:+ ".backup." +:+ timestamp <> interfaces_file.
Proof. intros H. apply (f_equal (String.get 5)) in H. discriminate H. Qed.

(** When the exclusion file cannot be opened, [configure_dhcpcd] does
    not return [True]. *)
Lemma configure_dhcpcd_unopenable (s : State) (r : Res bool) (s' : State) :
  (forall n, can_open W n dhcpcd_conf = false) ->
  configure_dhcpcd W s = (r, s') ->
  r <> Ok true.
Proof.
  intros Hopen H.
  destruct (files s !! dhcpcd_conf) as [content|] eqn:Hfile.
  - rewrite (configure_dhcpcd_present W s content Hfile) in H.
    unfold configure_dhcpcd_existing in H.
    destruct (backup_file_any W dhcpcd_conf
                (log (EvPrint Header "Configuring dhcpcd") s))
      as (backup & s1 & E & _).
    revert H. unfold_monad.
    cbn -[String.append lookup insert backup_file read_file].
    rewrite E. unfold read_file, now. rewrite Hopen.
    cbn -[String.append lookup insert].
    intros [= <- <-]. discriminate.
  - revert H.
    unfold configure_dhcpcd, handle_network_manager, detect_network_manager,
      input, write_file.
    run. rewrite Hfile. cbn -[String.append lookup insert].
    destruct (returncode _ =? 0)%Z; cbn -[String.append lookup insert].
    + destruct (stdin s) as [|line rest]; cbn -[String.append lookup insert];
        [intros [= <- <-]; discriminate|].
      destruct (is_yes (Py.lower (Py.strip line)));
        cbn -[String.append lookup insert];
        [|intros [= <- <-]; discriminate].
      repeat match goal with
      | |- context [(returncode ?r =? 0)%Z] =>
          destruct (returncode r =? 0)%Z; cbn -[String.append lookup insert]
      | |- context [truthy (stderr ?r)] =>
          destruct (truthy (stderr r)); cbn -[String.append lookup insert]
      end;
        unfold now; rewrite Hopen; cbn -[String.append lookup insert];
        intros [= <- <-]; discriminate.
    + unfold now. rewrite Hopen. cbn -[String.append lookup insert].
      intros [= <- <-]. discriminate.
Qed.

End Exclusion.

Lemma network_manager_reported_disabled_witness :
  exists s',
    handle_network_manager Demo.managed_host Demo.agreeing = (Ok true, s')
    /\ stdin s' = [].
Proof.
  destruct (network_manager_reported_disabled_whatever_systemctl_answers
              Demo.managed_host Demo.agreeing "yes" [])
    as (s' & E & _ & _ & Hi & _).
  - reflexivity.
  - reflexivity.
  - reflexivity.
  - exists s'. split; assumption.
Defined.

Lemma missing_exclusion_file_witness :
  exists s',
    configure_dhcpcd Demo.plain_host Demo.agreeing = (Ok true, s')
    /\ files s' !! dhcpcd_conf = Some (dhcpcd_header +:+ dhcpcd_block).
Proof.
  destruct (missing_exclusion_file_is_created Demo.plain_host Demo.agreeing)
    as (s' & E & Hf & _).
  - vm_compute. reflexivity.
  - intros n. reflexivity.
  - left. intros n. discriminate.
  - exists s'. split; assumption.
Defined.

(** *** A file that cannot be opened *)

Section Unopenable.

Context (W : World).

Lemma before_interfaces_backup_dhcpcd :
  respects before_interfaces_frame (backup_file W dhcpcd_conf).
Proof.
  unfold backup_file. respects_auto.
  split; [intros; simpl; tauto|]. simpl.
  apply interfaces_file_is_not_a_backup.
Qed.

Lemma before_interfaces_handle_network_manager :
  respects before_interfaces_frame (handle_network_manager W).
Proof. unfold handle_network_manager, detect_network_manager. respects_auto. Qed.

Lemma before_interfaces_configure_dhcpcd_existing :
  respects before_interfaces_frame (configure_dhcpcd_existing W).
Proof.
  pose proof before_interfaces_backup_dhcpcd.
  unfold configure_dhcpcd_existing. respects_auto. simpl. discriminate.
Qed.

Lemma before_interfaces_configure_dhcpcd :
  respects before_interfaces_frame (configure_dhcpcd W).
Proof.
  pose proof before_interfaces_handle_network_manager.
  pose proof before_interfaces_configure_dhcpcd_existing.
  unfold configure_dhcpcd. respects_auto. simpl. discriminate.
Qed.

(** X11.  An exclusion file that cannot be opened ends the run: once
    the packages are there, [provision] does not complete but exits
    with status 1 (or ends with an exception, which the script turns
    into status 1), and it has neither written the network-interfaces
    file nor changed the job table nor run an overlay stage. *)
Theorem unopenable_exclusion_file_ends_the_run (config : RunConfig)
    (s s1 : State) :
  (forall n, can_open W n dhcpcd_conf = false) ->
  install_packages W s = (Ok tt, s1) ->
  exists e s',
    provision W config s = (Raise e, s')
    /\ exits_with_1 e
    /\ files s' !! interfaces_file = files s1 !! interfaces_file
    /\ crontab s' = crontab s1
    /\ exists new, trace s' = new ++ trace s1
                   /\ Forall (fun e => ~ overlay_event e) new.
Proof.
  intros Hopen Hinst.
  unfold provision, mbind, M_bind, bind. rewrite Hinst.
  destruct (configure_dhcpcd W s1) as [[configured|e] s2] eqn:E.
  - destruct configured; [destruct (configure_dhcpcd_unopenable W _ _ _ Hopen E eq_refl)|].
    destruct (before_interfaces_configure_dhcpcd _ _ _ E)
      as (Hf & _ & Hc & new & T & Hall).
    cbn -[String.append lookup].
    eexists _, _. split; [reflexivity|]. split; [reflexivity|].
    cbn -[String.append lookup].
    split; [apply Hf; reflexivity|]. split; [apply Hc; exact I|].
    exists (EvPrint Error "Failed to configure dhcpcd" :: new).
    split; [rewrite T; reflexivity|]. constructor; [simpl; tauto | exact Hall].
  - destruct (before_interfaces_configure_dhcpcd _ _ _ E)
      as (Hf & _ & Hc & new & T & Hall).
    eexists _, _. split; [reflexivity|].
    split; [|split; [apply Hf; reflexivity|split; [apply Hc; exact I|eauto]]].
    eapply (raises_configure_dhcpcd W exits_with_1); [..|exact E];
      first [reflexivity | apply exceptions_exits_with_1].
Qed.

End Unopenable.

Lemma unopenable_exclusion_file_witness :
  exists s',
    provision Demo2.sealed_host Demo.example_config Demo.defaults_with_dhcpcd
    = (Raise (SystemExit 1), s')
    /\ files s' !! interfaces_file = None.
Proof.
  destruct (unopenable_exclusion_file_ends_the_run Demo2.sealed_host
              Demo.example_config Demo.defaults_with_dhcpcd
              (snd (install_packages Demo2.sealed_host Demo.defaults_with_dhcpcd)))
    as (e & s' & E & _ & Hf & _).
  - intros n. reflexivity.
  - vm_compute. reflexivity.
  - exists s'. split.
    + rewrite E. f_equal.
      assert (X : fst (provision Demo2.sealed_host Demo.example_config
                         Demo.defaults_with_dhcpcd) = Raise (SystemExit 1))
        by (vm_compute; reflexivity).
      rewrite E in X. exact X.
    + rewrite Hf. vm_compute. reflexivity.
Defined.

(** *** Where the downloads go *)

Lemma basename_aux_no_slash (s cur : string) :
  Py.has_char "/" cur = false -> Py.has_char "/" (Py.basename_aux s cur) = false.
Proof.
  revert cur. induction s as [|c t IH]; intros cur Hcur;
    cbn [Py.basename_aux]; [exact Hcur|].
  destruct (Ascii.eqb c "/") eqn:Hc.
  - apply IH. reflexivity.
  - apply IH. rewrite has_char_append, Hcur. cbn [Py.has_char orb].
    rewrite Ascii.eqb_sym, Hc. reflexivity.
Qed.

Lemma output_file_in_temp_dir (x : string) : in_temp_dir (output_file_of x).
Proof.
  exists (Py.basename x). split; [reflexivity|].
  apply basename_aux_no_slash. reflexivity.
Qed.

Lemma download_allowed (x package_url : string) :
  command_allowed download_frame (Wget (output_file_of x) package_url).
Proof. split; [intros r; apply output_file_in_temp_dir | simpl; tauto]. Qed.

Section Downloads.

Context (W : World).

Lemma confined_download_package_direct (package_url x : string) :
  respects download_frame
    (download_package_direct W package_url (output_file_of x)).
Proof.
  pose proof download_allowed.
  unfold download_package_direct. respects_auto.
Qed.

Lemma confined_download_from_snapshot (package_name arch : string) :
  respects download_frame (download_from_snapshot W package_name arch).
Proof.
  pose proof confined_download_package_direct.
  unfold download_from_snapshot, could_not_download. respects_auto.
Qed.

Lemma confined_try_mirrors (filename : string) (l : list string) :
  respects download_frame (try_mirrors W filename l).
Proof.
  pose proof confined_download_package_direct.
  induction l as [|mirror l IH]; simpl; respects_auto.
Qed.

Lemma confined_download_from_mirrors (package_name arch : string) :
  respects download_frame (download_from_mirrors W package_name arch).
Proof.
  pose proof confined_download_from_snapshot.
  pose proof confined_try_mirrors.
  unfold download_from_mirrors. respects_auto.
Qed.

Lemma confined_download_deb_package_improved (package_name arch : string) :
  respects download_frame (download_deb_package_improved W package_name arch).
Proof.
  pose proof confined_download_package_direct.
  pose proof confined_download_from_mirrors.
  unfold download_deb_package_improved. respects_auto.
Qed.

Lemma confined_install_deb_package (deb_file : string) :
  respects download_frame (install_deb_package W deb_file).
Proof. unfold install_deb_package. respects_auto. Qed.

Lemma confined_install_package (arch package : string) (failed : list string) :
  respects download_frame (install_package W arch package failed).
Proof.
  pose proof confined_download_deb_package_improved.
  pose proof confined_install_deb_package.
  unfold install_package. respects_auto.
Qed.

Lemma confined_install_each (arch : string) (l failed : list string) :
  respects download_frame (install_each W arch l failed).
Proof.
  pose proof confined_install_package.
  revert failed. induction l as [|package l IH]; intros failed; simpl;
    respects_auto.
Qed.

Lemma confined_print_manual_commands (l : list string) :
  respects download_frame (print_manual_commands l).
Proof. induction l as [|pkg l IH]; simpl; respects_auto. Qed.

Lemma confined_install_packages : respects download_frame (install_packages W).
Proof.
  pose proof confined_install_each.
  pose proof confined_print_manual_commands.
  unfold install_packages, install_required, get_architecture, install_zerotier,
    check_critical.
  respects_auto.
Qed.

Lemma confined_backup_file (filepath : string) :
  respects download_frame (backup_file W filepath).
Proof. unfold backup_file. respects_auto. Qed.

Lemma confined_configure_dhcpcd : respects download_frame (configure_dhcpcd W).
Proof.
  pose proof confined_backup_file.
  unfold configure_dhcpcd, configure_dhcpcd_existing, handle_network_manager,
    detect_network_manager.
  respects_auto.
Qed.

Lemma confined_configure_network_interfaces (config : RunConfig) :
  respects download_frame (configure_network_interfaces W config).
Proof.
  pose proof confined_backup_file.
  unfold configure_network_interfaces. respects_auto.
Qed.

Lemma confined_overlay_stages (network_id zt_interface : option string)
    (config : RunConfig) :
  respects download_frame (join_zerotier_network W network_id)
  /\ respects download_frame (configure_zerotier_managed W zt_interface)
  /\ respects download_frame (create_cron_job W zt_interface)
  /\ respects download_frame (print_portal_instructions W config)
  /\ respects download_frame (print_final_instructions config zt_interface).
Proof.
  split; [|split; [|split; [|split]]].
  - unfold join_zerotier_network. respects_auto.
  - unfold configure_zerotier_managed. respects_auto.
  - unfold create_cron_job. respects_auto.
  - unfold print_portal_instructions, get_zerotier_info. respects_auto.
  - unfold print_final_instructions. respects_auto.
Qed.

Lemma confined_provision (config : RunConfig) :
  respects download_frame (provision W config).
Proof.
  pose proof confined_install_packages.
  pose proof confined_configure_dhcpcd.
  pose proof confined_configure_network_interfaces.
  pose proof (fun n => proj1 (confined_overlay_stages n None config)).
  pose proof (fun z => proj1 (proj2 (confined_overlay_stages None z config))).
  pose proof (fun z => proj1 (proj2 (proj2 (confined_overlay_stages None z config)))).
  pose proof (fun c => proj1 (proj2 (proj2 (proj2 (confined_overlay_stages None None c))))).
  pose proof (fun z c => proj2 (proj2 (proj2 (proj2 (confined_overlay_stages None z c))))).
  unfold provision. respects_auto.
Qed.

Lemma confined_input_ip (prompt : string) :
  respects download_frame (input_ip prompt).
Proof.
  assert (H : forall fuel, respects download_frame (input_ip_loop fuel prompt))
    by (induction fuel as [|fuel IH]; simpl; respects_auto).
  intros s r s' E. eapply H, E.
Qed.

Lemma confined_script : respects download_frame (script W).
Proof.
  pose proof confined_input_ip.
  pose proof confined_provision.
  unfold script, main, check_root, get_user_input. respects_auto.
Qed.

(** X13.  Every download of a run goes to a file directly inside
    [/tmp/zerotier_packages]: whatever the run does and however it
    ends, the output path of each [wget] is that directory, a slash,
    and a name without a slash. *)
Theorem downloads_stay_in_the_download_directory (s : State) :
  exists new,
    trace (snd (script W s)) = new ++ trace s
    /\ forall output_path package_url result,
         In (EvRun (Wget output_path package_url) result) new ->
         in_temp_dir output_path.
Proof.
  destruct (script W s) as [r s'] eqn:E.
  destruct (confined_script _ _ _ E) as (_ & _ & _ & new & T & Hall).
  exists new. split; [exact T|].
  intros output_path package_url result Hin.
  exact (proj1 (List.Forall_forall _ _) Hall _ Hin).
Qed.

End Downloads.

(** *** Installing a downloaded package *)

Section Installer.

Context (W : World).

(** X12.  [install_deb_package] never raises and repairs at most once.
    A file that is not there is not installed: no command is run.
    Otherwise [dpkg -i] is run; when it succeeds that is all, and when
    it fails [apt-get install -f] and a second [dpkg -i] follow, and the
    verdict is the exit status of that second run. *)
Theorem install_deb_package_repairs_once (deb_file : string) (s : State) :
  let first := respond W (S (now s)) (DpkgInstall deb_file) in
  let second := respond W (4 + now s) (DpkgInstall deb_file) in
  exists installed s',
    install_deb_package W deb_file s = (Ok installed, s')
    /\ exists new,
         trace s' = new ++ trace s
         /\ match files s !! deb_file with
            | None => installed = false /\ commands new = []
            | Some _ =>
                if (returncode first =? 0)%Z
                then installed = true /\ commands new = [DpkgInstall deb_file]
                else installed = (returncode second =? 0)%Z
                     /\ commands new
                        = [ DpkgInstall deb_file; AptGetInstallFix;
                            DpkgInstall deb_file ]
            end.
Proof.
  intros first second. subst first second.
  unfold install_deb_package. run. unfold now.
  destruct (files s !! deb_file) as [data|];
    cbn -[String.append lookup insert Z.eqb].
  2:{ eexists _, _. split; [reflexivity|].
      cbn -[String.append]. split_trace. split; reflexivity. }
  destruct (returncode (respond W (S (length (trace s))) (DpkgInstall deb_file))
            =? 0)%Z eqn:E1;
    cbn -[String.append lookup insert Z.eqb]; rewrite ?E1;
    cbn -[String.append lookup insert Z.eqb].
  - eexists _, _. split; [reflexivity|].
    cbn -[String.append]. split_trace. split; reflexivity.
  - destruct (returncode
                (respond W (S (S (S (S (length (trace s)))))) (DpkgInstall deb_file))
              =? 0)%Z eqn:E2;
      cbn -[String.append lookup insert Z.eqb];
      (eexists _, _; split; [reflexivity|]);
      cbn -[String.append]; split_trace; split; reflexivity.
Qed.

(** X14.  Packages that are there are left alone: when [dpkg -l] finds
    both packages and the client binary exists, [install_packages]
    completes having run the index update, the architecture query and
    the two package queries, and nothing else: no installation, no
    download, no question. *)
Theorem installed_packages_are_left_alone (s : State) :
  (forall n package, returncode (respond W n (DpkgListGrep package)) = 0%Z) ->
  is_Some (files s !! zerotier_cli) ->
  exists s',
    install_packages W s = (Ok tt, s')
    /\ files s' = files s /\ stdin s' = stdin s /\ crontab s' = crontab s
    /\ exists new,
         trace s' = new ++ trace s
         /\ commands new = [ AptGetUpdate; DpkgPrintArchitecture;
                             DpkgListGrep "bridge-utils"; DpkgListGrep "ifupdown" ].
Proof.
  intros Hthere [cli Hcli].
  assert (Hb : forall n package,
             (returncode (respond W n (DpkgListGrep package)) =? 0)%Z = true)
    by (intros n package; rewrite Hthere; reflexivity).
  unfold install_packages, install_required, get_architecture, install_zerotier,
    check_critical, packages, install_each, install_package.
  run. unfold now.
  repeat match goal with
  | |- context [(returncode (respond W ?n (DpkgListGrep ?p)) =? 0)%Z] =>
      rewrite (Hb n p); cbn -[String.append lookup insert Z.eqb]
  | |- context [(returncode ?r =? 0)%Z] =>
      destruct (returncode r =? 0)%Z; cbn -[String.append lookup insert Z.eqb]
  | |- context [truthy (stderr ?r)] =>
      destruct (truthy (stderr r)); cbn -[String.append lookup insert Z.eqb]
  end;
    rewrite ?Hcli; cbn -[String.append lookup insert Z.eqb];
    (eexists; split; [reflexivity|]);
    cbn -[String.append lookup insert];
    (split; [reflexivity|]); (split; [reflexivity|]); (split; [reflexivity|]);
    split_trace; reflexivity.
Qed.

End Installer.

Lemma installed_packages_witness :
  exists s',
    install_packages Demo.plain_host Demo.defaults_with_dhcpcd = (Ok tt, s')
    /\ files s' = files Demo.defaults_with_dhcpcd.
Proof.
  destruct (installed_packages_are_left_alone Demo.plain_host Demo.defaults_with_dhcpcd)
    as (s' & E & Hf & _).
  - intros n package. reflexivity.
  - exists "ELF"%string. vm_compute. reflexivity.
  - exists s'. split; assumption.
Defined.

(** *** The overlay stages *)





Lemma all_lower_hex_substring (n : nat) (s : string) :
  Py.all_lower_hex n s = true ->
  Py.all_lower_hex n (String.substring 0 n s) = true
  /\ String.length (String.substring 0 n s) = n.
Proof.
  revert s. induction n as [|n IH]; intros s H.
  - destruct s; split; reflexivity.
  - destruct s as [|c t]; [discriminate H|]. simpl in H.
    apply andb_true_iff in H as [Hc Ht]. destruct (IH t Ht) as [IH1 IH2].
    simpl. rewrite Hc, IH1, IH2. split; reflexivity.
Qed.

Lemma search_hex16_aux_sound (prev_word : bool) (s id : string) :
  Py.search_hex16_aux prev_word s = Some id ->
  Py.all_lower_hex 16 id = true /\ String.length id = 16.
Proof.
  revert prev_word id. induction s as [|c t IH]; intros prev_word id; [discriminate|].
  cbn [Py.search_hex16_aux].
  destruct (negb prev_word && Py.all_lower_hex 16 (String c t)
            && negb (Py.word_at 16 (String c t))) eqn:E.
  - intros [= <-]. apply andb_true_iff in E as [E _].
    apply andb_true_iff in E as [_ E].
    exact (all_lower_hex_substring 16 (String c t) E).
  - apply IH.
Qed.

Lemma find_network_id_sound (zt_interface : string) (lines : list string)
    (id : string) :
  find_network_id zt_interface lines = Some id ->
  Py.all_lower_hex 16 id = true /\ String.length id = 16.
Proof.
  induction lines as [|line rest IH]; [discriminate|]. cbn [find_network_id].
  destruct (Py.contains zt_interface line); [|exact IH].
  destruct (Py.search_hex16 line) as [found|] eqn:E; [|exact IH].
  intros [= <-]. eapply search_hex16_aux_sound, E.
Qed.

Section Overlay.

Context (W : World).


(** X16.  The managed-routes stage never raises and only ever
    switches off managed routes for a network identifier of sixteen
    lower-case hexadecimal digits; it returns [True] only when that
    command answered with status 0. *)
Theorem managed_routes_only_for_a_hex_identifier (zt_interface : option string)
    (s : State) :
  exists ok s' new,
    configure_zerotier_managed W zt_interface s = (Ok ok, s')
    /\ trace s' = new ++ trace s
    /\ (forall id result,
          In (EvRun (ZeroTierSetAllowManaged id) result) new ->
          String.length id = 16 /\ Py.all_lower_hex 16 id = true)
    /\ (ok = true ->
        exists id result,
          In (EvRun (ZeroTierSetAllowManaged id) result) new
          /\ returncode result = 0%Z).
Proof.
  unfold configure_zerotier_managed. run. unfold now.
  destruct (truthy_opt zt_interface);
    cbn -[String.append Z.eqb Py.split_on find_network_id].
  2:{ eexists _, _, [_; _]. split; [reflexivity|]. split; [reflexivity|].
      split; [|discriminate].
      intros id result [H|[H|[]]]; discriminate H. }
  destruct (returncode _ =? 0)%Z;
    cbn -[String.append Z.eqb Py.split_on find_network_id].
  2:{ eexists _, _, [_; _; _; _]. split; [reflexivity|]. split; [reflexivity|].
      split; [|discriminate].
      intros id result [H|[H|[H|[H|[]]]]]; discriminate H. }
  destruct (find_network_id _ _) as [found|] eqn:Hfind;
    cbn -[String.append Z.eqb Py.split_on find_network_id].
  2:{ eexists _, _, [_; _; _; _]. split; [reflexivity|]. split; [reflexivity|].
      split; [|discriminate].
      intros id result [H|[H|[H|[H|[]]]]]; discriminate H. }
  destruct (find_network_id_sound _ _ _ Hfind) as [Hhex Hlen].
  assert (Ht : truthy found = true) by (destruct found; [discriminate Hlen | reflexivity]).
  rewrite Ht. cbn -[String.append Z.eqb Py.split_on find_network_id].
  destruct (returncode _ =? 0)%Z eqn:Hset;
    cbn -[String.append Z.eqb Py.split_on find_network_id];
    (eexists _, _, [_; _; _; _; _; _]; split; [reflexivity|];
     split; [reflexivity|]; split;
     [intros id result [H|[H|[H|[H|[H|[H|[]]]]]]]; try discriminate H;
      injection H as <- _; split; assumption|]).
  - intros _. eexists _, _. split; [right; left; reflexivity|].
    apply Z.eqb_eq, Hset.
  - discriminate.
Qed.








End Overlay.


(** *** The whole provisioning, when every stage succeeds *)

Section Provisioning.

Context (W : World).










End Provisioning.

